(** * Solana wallet tracker: the trade performance analyzer and its price client

    A shallow embedding of [app/page.js]: the GeckoTerminal price series
    client ([GeckoTerminalAPI.getOHLCV]), the trade analyzer
    ([analyzeTradePerformance]) and the part of the input form that builds a
    trade record ([handleSubmit]); then the DexScreener client, the search
    box ([handleSearch]), the trade list of the main component, the card's
    P&L and the counts of the statistics.

    - JavaScript numbers are IEEE 754 binary64 values; they are modelled by
      the Standard Library's [spec_float] at precision 53 and maximal
      exponent 1024, with its round-to-nearest-even arithmetic.
    - Values parsed from a JSON body are modelled by [value]; a JS object is
      a finite map from property names to values.
    - [async] functions run in a small state and exception monad [M] over a
      [World] holding the network, the clock and the console. *)

From Stdlib Require Import ZArith List Bool Lia SpecFloat.
From stdpp Require Import base option strings gmap pretty.
Import ListNotations.

Set Warnings "-register-all".

(** * Part I: the model *)

(** ** Numbers *)

Module Number.

Definition number : Type := spec_float.

Definition prec : Z := 53.
Definition emax : Z := 1024.

Definition NaN : number := S754_nan.
Definition Infinity : number := S754_infinity false.
Definition neg (x : number) : number := SFopp x.

(** An integer literal of the source, such as [1000] or [100]. *)
Definition of_Z (z : Z) : number := binary_normalize prec emax z 0 false.

Definition mul (x y : number) : number := SFmul prec emax x y.
Definition sub (x y : number) : number := SFsub prec emax x y.
Definition div (x y : number) : number := SFdiv prec emax x y.

(** [x < y], [x > y], [x <= y], [x >= y] and [x === y] on numbers. *)
Definition ltb (x y : number) : bool := SFltb x y.
Definition gtb (x y : number) : bool := SFltb y x.
Definition leb (x y : number) : bool := SFleb x y.
Definition geb (x y : number) : bool := SFleb y x.
Definition strict_eq (x y : number) : bool := SFeqb x y.

(** Truthiness of a number: [0], [-0] and [NaN] are falsy. *)
Definition ToBoolean (x : number) : bool :=
  match x with
  | S754_zero _ | S754_nan => false
  | _ => true
  end.

(** A real-valued number: neither [NaN] nor an infinity. *)
Definition is_finite (x : number) : bool :=
  match x with
  | S754_zero _ | S754_finite _ _ _ => true
  | _ => false
  end.

Definition is_nan (x : number) : bool :=
  match x with
  | S754_nan => true
  | _ => false
  end.

End Number.

Export Number.

(** ** JavaScript values

    The values a parsed JSON body is made of, and [undefined], which a
    property access yields for a missing key. *)

Inductive value :=
  | VUndefined
  | VNull
  | VBool (b : bool)
  | VNum (n : number)
  | VStr (s : string)
  | VArr (l : list value)
  | VObj (o : gmap string value).

(** Truthiness, as tested by [||], [?:] and [!]. *)
Definition truthy (v : value) : bool :=
  match v with
  | VUndefined | VNull => false
  | VBool b => b
  | VNum n => Number.ToBoolean n
  | VStr s => negb (String.eqb s "")
  | VArr _ | VObj _ => true
  end.

(** [a || b] *)
Definition or_else (a b : value) : value := if truthy a then a else b.

(** [o?.k] for a property name [k] that no built-in prototype defines: a
    nullish [o] short-circuits to [undefined], an object gives its own
    property, every other value has no such property. *)
Definition opt_member (o : value) (k : string) : value :=
  match o with
  | VObj m => default VUndefined (m !! k)
  | _ => VUndefined
  end.

(** ** The world: network, clock, console *)

Inductive error := FetchFailed | SyntaxError | TypeError.

(** An HTTP response: its status code and what [response.json()] resolves
    to, [None] when the body is not valid JSON. *)
Record Response := { http_status : Z; json_body : option value }.

Inductive FetchResult :=
  | Rejected                  (* the request never completed *)
  | Resolved (r : Response).

Record World := {
  network : string -> FetchResult;       (* the answer to a GET of a URL *)
  clock : number;                        (* Date.now() *)
  getTime : string -> number;            (* new Date(s).getTime() *)
  toISOString : number -> string;        (* new Date(t).toISOString() *)
  parseFloat : string -> number;
  console : list (string * error);       (* lines written by console.error *)
}.

(** The result of running an [async] function: it returns, it throws, or it
    leaves the typed fragment of JavaScript this development covers. *)
Inductive Outcome (A : Type) :=
  | Returns (a : A)
  | Throws (e : error)
  | Unmodelled.
Arguments Returns {A} a.
Arguments Throws {A} e.
Arguments Unmodelled {A}.

Definition M (A : Type) : Type := World -> Outcome A * World.

#[global] Instance M_ret : MRet M := fun A a w => (Returns a, w).

#[global] Instance M_bind : MBind M := fun A B f m w =>
  match m w with
  | (Returns a, w') => f a w'
  | (Throws e, w') => (Throws e, w')
  | (Unmodelled, w') => (Unmodelled, w')
  end.

Definition throw {A} (e : error) : M A := fun w => (Throws e, w).

Definition unmodelled {A} : M A := fun w => (Unmodelled, w).

(** [try { body } catch (error) { handler }] *)
Definition try_catch {A} (body : M A) (handler : error -> M A) : M A :=
  fun w =>
    match body w with
    | (Throws e, w') => handler e w'
    | r => r
    end.

(** [await fetch(url)]: rejects only when the request itself fails; an HTTP
    error status still resolves. *)
Definition fetch (url : string) : M Response :=
  fun w =>
    match network w url with
    | Rejected => (Throws FetchFailed, w)
    | Resolved r => (Returns r, w)
    end.

(** [await response.json()] *)
Definition Response_json (response : Response) : M value :=
  match json_body response with
  | Some data => mret data
  | None => throw SyntaxError
  end.

(** [o.k], again for a [k] that no prototype defines. *)
Definition member (o : value) (k : string) : M value :=
  match o with
  | VUndefined | VNull => throw TypeError
  | _ => mret (opt_member o k)
  end.

Definition console_error (msg : string) (e : error) : M unit :=
  fun w =>
    (Returns tt,
     {| network := network w; clock := clock w; getTime := getTime w;
        toISOString := toISOString w; parseFloat := parseFloat w;
        console := console w ++ [(msg, e)] |}).

(** Reading the host: the clock and the pure built-ins. *)
Definition reads {A} (f : World -> A) : M A := fun w => (Returns (f w), w).

Definition Date_now : M number := reads clock.

Definition Date_toISOString (t : number) : M string :=
  reads (fun w => toISOString w t).

Definition Global_parseFloat (s : string) : M number :=
  reads (fun w => parseFloat w s).

(** ** Configuration and the price series client *)

Module API_CONFIG.
Module dexscreener.
Definition baseUrl : string := "https://api.dexscreener.com".
End dexscreener.
Module geckoterminal.
Definition baseUrl : string := "https://api.geckoterminal.com/api/v2".
End geckoterminal.
End API_CONFIG.

Module GeckoTerminalAPI.

Definition ohlcv_url (network poolAddress timeframe : string)
    (aggregate limit : Z) : string :=
  API_CONFIG.geckoterminal.baseUrl +:+ "/networks/" +:+ network
    +:+ "/pools/" +:+ poolAddress +:+ "/ohlcv/" +:+ timeframe
    +:+ "?aggregate=" +:+ pretty aggregate +:+ "&limit=" +:+ pretty limit
    +:+ "&currency=usd".

(** [getOHLCV(network, poolAddress, timeframe, aggregate, limit)]; its one
    caller passes all five arguments. *)
Definition getOHLCV (network poolAddress timeframe : string)
    (aggregate limit : Z) : M value :=
  try_catch
    (response ← fetch (ohlcv_url network poolAddress timeframe aggregate limit);
     data ← Response_json response;
     data_data ← member data "data";
     mret (or_else
             (opt_member (opt_member data_data "attributes") "ohlcv_list")
             (VArr [])))
    (fun error =>
       _ ← console_error "GeckoTerminal OHLCV error:" error;
       mret (VArr [])).

End GeckoTerminalAPI.

(** ** Trade records and the input form *)

Inductive Status := open | closed.

Record TradeRecord := {
  id : number;
  tokenAddress : string;
  tokenSymbol : string;
  tokenName : string;
  poolAddress : string;
  dexId : string;
  chainId : string;
  buyPrice : number;
  buyAmount : number;
  buyMarketCap : number;
  buyTimestamp : string;
  sellPrice : option number;          (* [None] is [null] *)
  sellAmount : option number;
  sellTimestamp : option string;
  notes : string;
  status : Status;
  createdAt : string;
}.

(** The text fields of the form, as typed by the user. *)
Module formData.
Record t := {
  buyPrice : string;
  buyAmount : string;
  buyMarketCap : string;
  buyTimestamp : string;
  sellPrice : string;
  sellAmount : string;
  sellTimestamp : string;
  notes : string;
}.
End formData.

(** The token picked in the search box (a DexScreener pair). *)
Module baseToken.
Record t := {
  address : string;
  symbol : string;
  name : string;
}.
End baseToken.

Module selectedToken.
Record t := {
  baseToken : baseToken.t;
  pairAddress : string;
  dexId : string;
  chainId : string;
}.
End selectedToken.

(** Truthiness of a string: only the empty string is falsy. *)
Definition truthy_string (s : string) : bool := negb (String.eqb s "").

(** [handleSubmit]: the trade handed to [onAddTrade], or nothing when no
    token is selected. *)
Definition handleSubmit (token : option selectedToken.t) (f : formData.t)
    : M (option TradeRecord) :=
  match token with
  | None => mret None
  | Some tok =>
      id ← Date_now;
      buyPrice ← Global_parseFloat (formData.buyPrice f);
      buyAmount ← Global_parseFloat (formData.buyAmount f);
      buyMarketCap ← Global_parseFloat (formData.buyMarketCap f);
      sellPrice ← (if truthy_string (formData.sellPrice f)
                   then x ← Global_parseFloat (formData.sellPrice f); mret (Some x)
                   else mret None);
      sellAmount ← (if truthy_string (formData.sellAmount f)
                    then x ← Global_parseFloat (formData.sellAmount f); mret (Some x)
                    else mret None);
      t ← Date_now;
      createdAt ← Date_toISOString t;
      mret (Some
        {| id := id;
           tokenAddress := baseToken.address (selectedToken.baseToken tok);
           tokenSymbol := baseToken.symbol (selectedToken.baseToken tok);
           tokenName := baseToken.name (selectedToken.baseToken tok);
           poolAddress := selectedToken.pairAddress tok;
           dexId := selectedToken.dexId tok;
           chainId := selectedToken.chainId tok;
           buyPrice := buyPrice;
           buyAmount := buyAmount;
           buyMarketCap := buyMarketCap;
           buyTimestamp := formData.buyTimestamp f;
           sellPrice := sellPrice;
           sellAmount := sellAmount;
           sellTimestamp := if truthy_string (formData.sellTimestamp f)
                            then Some (formData.sellTimestamp f) else None;
           notes := formData.notes f;
           status := if truthy_string (formData.sellPrice f) then closed else open;
           createdAt := createdAt |})
  end.

(** ** The analyzer *)

(** A candle of the provider: the array [[timestamp, open, high, low, close,
    volume]] of numbers, the timestamp in seconds. *)
Definition Candle : Type := list number.

(** [candle[i]] where a number is expected: a missing element is
    [undefined], which every use in the analyzer converts to [NaN]. *)
Definition at_ (candle : Candle) (i : nat) : number := nth i candle NaN.

Definition asNumber (v : value) : option number :=
  match v with
  | VNum n => Some n
  | _ => None
  end.

Definition asCandle (v : value) : option Candle :=
  match v with
  | VArr l => mapM asNumber l
  | _ => None
  end.

(** The value returned by the client, seen as an array of arrays of
    numbers. *)
Definition asSeries (v : value) : option (list Candle) :=
  match v with
  | VArr l => mapM asCandle l
  | _ => None
  end.

Definition typed_series (v : value) : M (list Candle) :=
  match asSeries v with
  | Some candles => mret candles
  | None => unmodelled
  end.

(** The [analysis] object. *)
Record Analysis := {
  minPrice : number;
  maxPrice : number;
  minTimestamp : option number;
  maxTimestamp : option number;
  pnlPercent : option number;
  maxGainPercent : number;
  maxDrawdownPercent : number;
  capturedPercent : option number;
  candleCount : nat;
}.

(** [{ ...trade, analysis }] *)
Record AnalyzedTrade := {
  trade : TradeRecord;
  analysis : option Analysis;
}.

(** [candleTime >= buyTime && candleTime <= sellTime], the callback of the
    filter. *)
Definition in_window (buyTime sellTime : number) (candle : Candle) : bool :=
  let candleTime := mul (at_ candle 0) (of_Z 1000) in
  geb candleTime buyTime && leb candleTime sellTime.

Definition relevantCandles (buyTime sellTime : number)
    (ohlcvData : list Candle) : list Candle :=
  List.filter (in_window buyTime sellTime) ohlcvData.

(** The four variables the [forEach] loop updates. *)
Module Loop.
Record vars := {
  minPrice : number;
  maxPrice : number;
  minTimestamp : option number;
  maxTimestamp : option number;
}.

Definition init : vars :=
  {| minPrice := Infinity; maxPrice := neg Infinity;
     minTimestamp := None; maxTimestamp := None |}.

(** One iteration: [const [ts, open, high, low, close] = candle; ...] *)
Definition body (v : vars) (candle : Candle) : vars :=
  let ts := at_ candle 0 in
  let high := at_ candle 2 in
  let low := at_ candle 3 in
  let v :=
    if ltb low (minPrice v)
    then {| minPrice := low; maxPrice := maxPrice v;
            minTimestamp := Some (mul ts (of_Z 1000));
            maxTimestamp := maxTimestamp v |}
    else v in
  if gtb high (maxPrice v)
  then {| minPrice := minPrice v; maxPrice := high;
          minTimestamp := minTimestamp v;
          maxTimestamp := Some (mul ts (of_Z 1000)) |}
  else v.

Definition forEach (candles : list Candle) : vars :=
  fold_left body candles init.
End Loop.

(** Lines 117 to 151: the scan and the derived percentages, for a window
    that is not empty. *)
Definition summarize (trade : TradeRecord) (relevant : list Candle) : Analysis :=
  let v := Loop.forEach relevant in
  let minPrice := Loop.minPrice v in
  let maxPrice := Loop.maxPrice v in
  let buyPrice := buyPrice trade in
  let pnlPercent :=
    match sellPrice trade with
    | Some sell =>
        if Number.ToBoolean sell
        then Some (mul (div (sub sell buyPrice) buyPrice) (of_Z 100))
        else None
    | None => None
    end in
  let maxGainPercent := mul (div (sub maxPrice buyPrice) buyPrice) (of_Z 100) in
  let maxDrawdownPercent := mul (div (sub minPrice buyPrice) buyPrice) (of_Z 100) in
  let capturedPercent :=
    match pnlPercent with
    | Some pnl =>
        if gtb maxGainPercent (of_Z 0)
        then Some (mul (div pnl maxGainPercent) (of_Z 100))
        else None
    | None => None
    end in
  {| minPrice := minPrice;
     maxPrice := maxPrice;
     minTimestamp := Loop.minTimestamp v;
     maxTimestamp := Loop.maxTimestamp v;
     pnlPercent := pnlPercent;
     maxGainPercent := maxGainPercent;
     maxDrawdownPercent := maxDrawdownPercent;
     capturedPercent := capturedPercent;
     candleCount := length relevant |}.

(** [new Date(buyTimestamp).getTime()] *)
Definition buyTime (w : World) (trade : TradeRecord) : number :=
  getTime w (buyTimestamp trade).

(** [sellTimestamp ? new Date(sellTimestamp).getTime() : Date.now()] *)
Definition sellTime (w : World) (trade : TradeRecord) : number :=
  match sellTimestamp trade with
  | Some s => if truthy_string s then getTime w s else clock w
  | None => clock w
  end.

Definition analyzeTradePerformance (trade : TradeRecord) : M AnalyzedTrade :=
  v ← GeckoTerminalAPI.getOHLCV "solana" (poolAddress trade) "hour" 1 1000;
  ohlcvData ← typed_series v;
  if Nat.eqb (length ohlcvData) 0
  then mret {| trade := trade; analysis := None |}
  else
    buyTime ← reads (fun w => buyTime w trade);
    sellTime ← reads (fun w => sellTime w trade);
    let relevant := relevantCandles buyTime sellTime ohlcvData in
    if Nat.eqb (length relevant) 0
    then mret {| trade := trade; analysis := None |}
    else mret {| trade := trade; analysis := Some (summarize trade relevant) |}.

(** ** Tracking one extremum

    Both halves of the loop body follow one scheme: keep the best key seen
    so far and the millisecond timestamp of the candle it came from, and
    replace them only when a candle is strictly better. *)

(** The names the loop body gives to the elements of a candle. *)
Definition high (candle : Candle) : number := at_ candle 2.
Definition low (candle : Candle) : number := at_ candle 3.

(** [ts * 1000] *)
Definition millis (candle : Candle) : number := mul (at_ candle 0) (of_Z 1000).

Definition track (better : number -> number -> bool) (key : Candle -> number)
    (acc : number * option number) (candle : Candle) : number * option number :=
  if better (key candle) (fst acc)
  then (key candle, Some (millis candle))
  else acc.

(** What is known after the candles [seen] have been visited. *)
Inductive tracked (better : number -> number -> bool) (sentinel : number)
    (key : Candle -> number) (seen : list Candle)
    : number * option number -> Prop :=
  | tracked_none :
      seen = [] -> tracked better sentinel key seen (sentinel, None)
  | tracked_at (i : nat) (ci : Candle) :
      seen !! i = Some ci ->
      (forall c, c ∈ seen -> better (key c) (key ci) = false) ->
      (forall k ck, (k < i)%nat -> seen !! k = Some ck ->
                    better (key ci) (key ck) = true) ->
      tracked better sentinel key seen (key ci, Some (millis ci)).

Definition finite_key (key : Candle -> number) (candle : Candle) : Prop :=
  is_finite (key candle) = true.

(** A candle of the data model: its high and its low are real numbers. *)
Definition real_prices (candle : Candle) : Prop :=
  is_finite (high candle) = true /\ is_finite (low candle) = true.

#[global] Instance real_prices_dec (candle : Candle) : Decision (real_prices candle).
Proof. unfold real_prices. apply _. Defined.

(** ** Running a computation *)

(** The outcome of running [m] in the world [w], and the world it leaves. *)
Definition eval {A} (m : M A) (w : World) : Outcome A := fst (m w).
Definition exec {A} (m : M A) (w : World) : World := snd (m w).

(** Two worlds that differ at most in what has been written to the
    console. *)
Definition same_host (w w' : World) : Prop :=
  network w' = network w /\ clock w' = clock w /\ getTime w' = getTime w /\
  toISOString w' = toISOString w /\ parseFloat w' = parseFloat w.

(** [data.data?.attributes?.ohlcv_list] read off a parsed body. *)
Definition ohlcv_list_of (data : value) : value :=
  opt_member (opt_member (opt_member data "data") "attributes") "ohlcv_list".

(** What the client makes of an answer of the network. *)
Definition client_value (r : FetchResult) : value :=
  match r with
  | Rejected => VArr []
  | Resolved r =>
      match json_body r with
      | None => VArr []
      | Some (VUndefined | VNull) => VArr []
      | Some data => or_else (ohlcv_list_of data) (VArr [])
      end
  end.

(** The URL the analyzer asks for. *)
Definition trade_url (trade : TradeRecord) : string :=
  GeckoTerminalAPI.ohlcv_url "solana" (poolAddress trade) "hour" 1 1000.

(** ** Sample inputs *)

Module Sample.

Definition candle (ts open_ high low close : Z) : Candle :=
  [of_Z ts; of_Z open_; of_Z high; of_Z low; of_Z close].

(** Lows 5, 3, 8 and highs 6, 9, 10 at the seconds 10, 20, 30. *)
Definition window : list Candle :=
  [candle 10 5 6 5 5; candle 20 5 9 3 5; candle 30 8 10 8 9].

(** A trade bought at 2, ten seconds after the epoch. *)
Definition trade (sellPrice : option number) (sellTimestamp : option string)
    (status : Status) : TradeRecord :=
  {| id := of_Z 1; tokenAddress := "mint"; tokenSymbol := "TKN";
     tokenName := "Token"; poolAddress := "pool"; dexId := "raydium";
     chainId := "solana";
     buyPrice := of_Z 2; buyAmount := of_Z 100; buyMarketCap := of_Z 1000;
     buyTimestamp := "1970-01-01T00:00:10";
     sellPrice := sellPrice; sellAmount := None;
     sellTimestamp := sellTimestamp;
     notes := ""; status := status; createdAt := "1970-01-01T00:00:40.000Z" |}.

(** The body the provider sends for a list of candles. *)
Definition payload (candles : list Candle) : value :=
  VObj {[ "data" := VObj {[ "attributes" :=
    VObj {[ "ohlcv_list" := VArr (map (fun c => VArr (map VNum c)) candles) ]} ]} ]}.

Definition ok (candles : list Candle) : FetchResult :=
  Resolved {| http_status := 200; json_body := Some (payload candles) |}.

(** A host in the UTC time zone, forty seconds after the epoch, that knows
    the few date and number texts used below. *)
Definition world (answer : FetchResult) : World :=
  {| network := fun _ => answer;
     clock := of_Z 40000;
     getTime := fun s =>
       if String.eqb s "1970-01-01T00:00:10" then of_Z 10000
       else if String.eqb s "1970-01-01T00:00:20" then of_Z 20000
       else if String.eqb s "1970-01-01T00:00:30" then of_Z 30000
       else NaN;
     toISOString := fun _ => "1970-01-01T00:00:40.000Z";
     parseFloat := fun s =>
       if String.eqb s "0" then of_Z 0
       else if String.eqb s "2" then of_Z 2
       else if String.eqb s "3" then of_Z 3
       else if String.eqb s "100" then of_Z 100
       else if String.eqb s "1000" then of_Z 1000
       else NaN;
     console := [] |}.

End Sample.

(** ** Statements of the specification that the code does not satisfy

    Each is written down as the specification words it, to be compared with
    what the code does. *)

(** "pnlPercent is non-null exactly when a sell price is recorded, and
    capturedPercent is non-null exactly when pnlPercent is non-null and
    maxGainPercent > 0." *)
Definition percent_gating_as_stated (trade : TradeRecord) (a : Analysis) : Prop :=
  (pnlPercent a <> None <-> sellPrice trade <> None) /\
  (capturedPercent a <> None
   <-> pnlPercent a <> None /\ gtb (maxGainPercent a) (of_Z 0) = true).


(** "A network failure, a non-2xx response, malformed JSON, or a response
    missing the candle list results in an empty candle series." *)
Definition failure_as_stated (answer : FetchResult) : Prop :=
  match answer with
  | Rejected => True
  | Resolved r =>
      ~ (200 <= http_status r < 300)%Z \/
      json_body r = None \/
      exists data, json_body r = Some data /\ ohlcv_list_of data = VUndefined
  end.

Definition degrades_as_stated (w : World) (network_ poolAddress timeframe : string)
    (aggregate limit : Z) : Prop :=
  failure_as_stated
    (network w (GeckoTerminalAPI.ohlcv_url network_ poolAddress timeframe aggregate limit)) ->
  eval (GeckoTerminalAPI.getOHLCV network_ poolAddress timeframe aggregate limit) w
    = Returns (VArr []).

(** The canonical candle of the specification: an object with the named
    fields timestamp, open, high, low and close. *)
Definition canonical_candle (v : value) : Prop :=
  exists o : gmap string value,
    v = VObj o /\
    is_Some (o !! "timestamp") /\ is_Some (o !! "open") /\
    is_Some (o !! "high") /\ is_Some (o !! "low") /\ is_Some (o !! "close").

(** "The client maps each raw candle into the canonical shape before
    returning." *)
Definition normalizes_as_stated (w : World) (network_ poolAddress timeframe : string)
    (aggregate limit : Z) : Prop :=
  forall l,
    eval (GeckoTerminalAPI.getOHLCV network_ poolAddress timeframe aggregate limit) w
      = Returns (VArr l) ->
    Forall canonical_candle l.

(** A candle of the analyzer is the provider's array itself. *)
Definition raw_candle (v : value) (candle : Candle) : Prop :=
  v = VArr (map VNum candle).

(** "The window ends at the sell timestamp when the trade is closed and at
    the current instant when it is open; it starts at the buy timestamp." *)
Definition window_as_stated (w : World) (trade : TradeRecord) : Prop :=
  buyTime w trade = getTime w (buyTimestamp trade) /\
  match status trade with
  | closed => exists s, sellTimestamp trade = Some s /\ sellTime w trade = getTime w s
  | open => sellTime w trade = clock w
  end.

Module SampleForm.

Definition token : selectedToken.t :=
  {| selectedToken.baseToken :=
       {| baseToken.address := "mint"; baseToken.symbol := "TKN";
          baseToken.name := "Token" |};
     selectedToken.pairAddress := "pool";
     selectedToken.dexId := "raydium"; selectedToken.chainId := "solana" |}.

(** A form with a buy at 2 and the given sell price and sell time. *)
Definition form (sellPrice sellTimestamp : string) : formData.t :=
  {| formData.buyPrice := "2"; formData.buyAmount := "100";
     formData.buyMarketCap := "1000";
     formData.buyTimestamp := "1970-01-01T00:00:10";
     formData.sellPrice := sellPrice; formData.sellAmount := "";
     formData.sellTimestamp := sellTimestamp; formData.notes := "" |}.

End SampleForm.

(** ** The DexScreener client *)

Module DexScreenerAPI.

Section Host.

(** The built-in [encodeURIComponent]. *)
Variable encodeURIComponent : string -> string.

Definition search_url (query : string) : string :=
  API_CONFIG.dexscreener.baseUrl +:+ "/latest/dex/search?q="
    +:+ encodeURIComponent query.

(** [searchToken(query)] *)
Definition searchToken (query : string) : M value :=
  try_catch
    (response ← fetch (search_url query);
     data ← Response_json response;
     pairs ← member data "pairs";
     mret (or_else pairs (VArr [])))
    (fun error =>
       _ ← console_error "DexScreener search error:" error;
       mret (VArr [])).

End Host.

Definition token_pairs_url (chainId tokenAddress : string) : string :=
  API_CONFIG.dexscreener.baseUrl +:+ "/token-pairs/v1/" +:+ chainId
    +:+ "/" +:+ tokenAddress.

(** [getTokenPairs(chainId, tokenAddress)] *)
Definition getTokenPairs (chainId tokenAddress : string) : M value :=
  try_catch
    (response ← fetch (token_pairs_url chainId tokenAddress);
     data ← Response_json response;
     mret (or_else data (VArr [])))
    (fun error =>
       _ ← console_error "DexScreener token pairs error:" error;
       mret (VArr [])).

End DexScreenerAPI.

(** ** The token search box *)

Module TokenSearch.

(** The three state variables of the component. *)
Record state := {
  query : string;
  results : list value;
  loading : bool;
}.

(** [p.chainId === 'solana']: reading a property of [null] or [undefined]
    throws. *)
Definition is_solana (p : value) : error + bool :=
  match p with
  | VUndefined | VNull => inl TypeError
  | _ =>
      inr match opt_member p "chainId" with
          | VStr s => String.eqb s "solana"
          | _ => false
          end
  end.

(** [l.filter(p => p.chainId === 'solana')] on the elements of an array,
    visited from the first on. *)
Fixpoint filter_solana (l : list value) : error + list value :=
  match l with
  | [] => inr []
  | p :: l' =>
      match is_solana p with
      | inl e => inl e
      | inr keep =>
          match filter_solana l' with
          | inl e => inl e
          | inr rest => inr (if keep then p :: rest else rest)
          end
      end
  end.

(** [pairs.filter(...)]: only an array has a [filter] method; on any other
    value the call is a TypeError. *)
Definition solanaPairs (pairs : value) : error + list value :=
  match pairs with
  | VArr l => filter_solana l
  | _ => inl TypeError
  end.

Section Host.

Variable encodeURIComponent : string -> string.

(** The built-in [String.prototype.trim]. *)
Variable trim : string -> string.

(** [handleSearch]: its outcome, the state of the component once it has
    returned or thrown, and the world. *)
Definition handleSearch (st : state) (w : World) : Outcome unit * state * World :=
  if negb (truthy_string (trim (query st)))
  then (Returns tt, st, w)
  else
    let searching := {| query := query st; results := results st; loading := true |} in
    match DexScreenerAPI.searchToken encodeURIComponent (query st) w with
    | (Returns pairs, w') =>
        match solanaPairs pairs with
        | inl e => (Throws e, searching, w')
        | inr solana =>
            (Returns tt,
             {| query := query st; results := firstn 10 solana; loading := false |},
             w')
        end
    | (Throws e, w') => (Throws e, searching, w')
    | (Unmodelled, w') => (Unmodelled, searching, w')
    end.

End Host.

End TokenSearch.

(** ** The trade list of the main component *)

Module App.


(** [handleUpdateTrade]: [prev.map(t => t.id === updatedTrade.id ? updatedTrade : t)] *)
Definition handleUpdateTrade (updatedTrade : AnalyzedTrade)
    (prev : list AnalyzedTrade) : list AnalyzedTrade :=
  map (fun t => if strict_eq (id (trade t)) (id (trade updatedTrade))
                then updatedTrade else t) prev.


(** [handleAnalyze] of the card of [t]: analyze, then [onUpdate(analyzed)]. *)
Definition handleAnalyze (t : AnalyzedTrade) (prev : list AnalyzedTrade)
    : M (list AnalyzedTrade) :=
  analyzed ← analyzeTradePerformance (trade t);
  mret (handleUpdateTrade analyzed prev).

End App.

(** ** The trade card and the statistics *)


Module TradeCard.

(** [trade.sellPrice ? ... : currentPrice ? ... : null], the P&L shown in
    the header of a card. *)
Definition pnl (t : TradeRecord) (currentPrice : option number) : option number :=
  let of_price price :=
    mul (div (sub price (buyPrice t)) (buyPrice t)) (of_Z 100) in
  let unrealized :=
    match currentPrice with
    | Some price => if Number.ToBoolean price then Some (of_price price) else None
    | None => None
    end in
  match sellPrice t with
  | Some sell => if Number.ToBoolean sell then Some (of_price sell) else unrealized
  | None => unrealized
  end.

End TradeCard.

Module StatsDashboard.

Definition add (x y : number) : number := SFadd prec emax x y.









(** [trades.reduce((sum, t) => sum + (t.buyAmount || 0), 0)] *)
Definition totalInvested (trades : list AnalyzedTrade) : number :=
  fold_left
    (fun sum t =>
       add sum (if Number.ToBoolean (buyAmount (trade t))
                then buyAmount (trade t) else of_Z 0))
    trades (of_Z 0).


End StatsDashboard.

(** ** Auxiliary notions for the properties of Part IV *)

(** Two candles that agree on what the analyzer reads: the timestamp, the
    high and the low. *)
Definition same_reading (c c' : Candle) : Prop :=
  at_ c 0 = at_ c' 0 /\ at_ c 2 = at_ c' 2 /\ at_ c 3 = at_ c' 3.

(** The candle invariant of the data model: the low is at most the high. *)
Definition low_le_high (c : Candle) : Prop := leb (low c) (high c) = true.

(** The error a client catches for an answer of the network, if any, when
    it reads a property of the parsed body: the request failed, the body is
    not JSON, or the body is [null]. *)
Definition caught_error (answer : FetchResult) : option error :=
  match answer with
  | Rejected => Some FetchFailed
  | Resolved r =>
      match json_body r with
      | None => Some SyntaxError
      | Some (VUndefined | VNull) => Some TypeError
      | Some _ => None
      end
  end.

Definition nullish (v : value) : bool :=
  match v with
  | VUndefined | VNull => true
  | _ => false
  end.

(** The test of the search filter on a value that is not nullish. *)
Definition chain_is_solana (p : value) : bool :=
  match opt_member p "chainId" with
  | VStr s => String.eqb s "solana"
  | _ => false
  end.

(** The ids of a trade list are pairwise different, as compared by [===]. *)
Inductive distinct_ids : list AnalyzedTrade -> Prop :=
  | distinct_nil : distinct_ids []
  | distinct_cons (t : AnalyzedTrade) (l : list AnalyzedTrade) :
      (forall t', t' ∈ l -> strict_eq (id (trade t)) (id (trade t')) = false) ->
      distinct_ids l ->
      distinct_ids (t :: l).

(** What [searchToken] makes of an answer of the network. *)
Definition pairs_value (answer : FetchResult) : value :=
  match caught_error answer, answer with
  | None, Resolved {| json_body := Some data |} =>
      or_else (opt_member data "pairs") (VArr [])
  | _, _ => VArr []
  end.

Definition is_array (v : value) : bool :=
  match v with
  | VArr _ => true
  | _ => false
  end.

Module SampleSearch.

Definition pair (chainId symbol : string) : value :=
  VObj {[ "chainId" := VStr chainId;
          "baseToken" := VObj {[ "symbol" := VStr symbol ]} ]}.

(** A search answer listing a Solana pair between two pairs of other
    chains. *)
Definition found : FetchResult :=
  Resolved {| http_status := 200;
              json_body := Some (VObj {[ "pairs" :=
                VArr [pair "ethereum" "BONK"; pair "solana" "BONK";
                      pair "bsc" "BONK"] ]}) |}.

(** A search answer whose list of pairs holds a [null]. *)
Definition holed : FetchResult :=
  Resolved {| http_status := 200;
              json_body := Some (VObj {[ "pairs" :=
                VArr [pair "solana" "BONK"; VNull] ]}) |}.

Definition state (query : string) : TokenSearch.state :=
  {| TokenSearch.query := query; TokenSearch.results := [];
     TokenSearch.loading := false |}.

(** Percent-encoding and trimming, on texts that need neither. *)
Definition encodeURIComponent (s : string) : string := s.
Definition trim (s : string) : string := if String.eqb s " " then "" else s.

End SampleSearch.

(** * Part II: facts about the model *)

(** ** The order on numbers *)

Section NumberOrder.

Ltac fold_compare :=
  repeat match goal with
  | |- context [PosDef.Pos.compare_cont Eq ?p ?q] =>
      change (PosDef.Pos.compare_cont Eq p q) with (Pos.compare p q)
  | H : context [PosDef.Pos.compare_cont Eq ?p ?q] |- _ =>
      change (PosDef.Pos.compare_cont Eq p q) with (Pos.compare p q) in H
  end.

Lemma SFcompare_antisym (x y : number) :
  SFcompare y x = option_map CompOpp (SFcompare x y).
Proof.
  destruct x as [sx|sx| |sx mx ex], y as [sy|sy| |sy my ey]; simpl;
    try reflexivity;
    try (destruct sx; reflexivity);
    try (destruct sy; reflexivity);
    try (destruct sx, sy; reflexivity).
  fold_compare.
  destruct (Z.compare_spec ex ey), (Z.compare_spec ey ex),
           (Pos.compare_spec mx my), (Pos.compare_spec my mx);
    try lia; destruct sx, sy; reflexivity.
Qed.

Lemma SFcompare_Eq_l (x y z : number) :
  SFcompare x y = Some Eq -> SFcompare x z = SFcompare y z.
Proof.
  destruct x as [sx|sx| |sx mx ex], y as [sy|sy| |sy my ey]; simpl;
    try discriminate;
    try (destruct sx; discriminate);
    try (destruct sy; discriminate).
  - reflexivity.
  - destruct sx, sy; try discriminate; reflexivity.
  - fold_compare. intros H.
    assert (sx = sy /\ ex = ey /\ mx = my) as (-> & -> & ->).
    { destruct sx, sy; try discriminate;
        destruct (Z.compare_spec ex ey); try discriminate;
        destruct (Pos.compare_spec mx my); try discriminate; auto. }
    reflexivity.
Qed.

Lemma SFcompare_Lt_trans (x y z : number) :
  SFcompare x y = Some Lt -> SFcompare y z = Some Lt ->
  SFcompare x z = Some Lt.
Proof.
  destruct x as [sx|sx| |sx mx ex], y as [sy|sy| |sy my ey],
           z as [sz|sz| |sz mz ez]; simpl;
    try discriminate; try reflexivity;
    try (destruct sx; try discriminate; try reflexivity;
         destruct sy; try discriminate; try reflexivity;
         destruct sz; try discriminate; reflexivity);
    try (destruct sx; try discriminate; try reflexivity;
         destruct sz; try discriminate; try reflexivity;
         destruct sy; try discriminate; reflexivity).
  fold_compare.
  destruct sx, sy, sz; try discriminate; try reflexivity;
    destruct (Z.compare_spec ex ey); try discriminate;
    destruct (Z.compare_spec ey ez); try discriminate;
    destruct (Z.compare_spec ex ez); try reflexivity; try lia;
    destruct (Pos.compare_spec mx my); try discriminate;
    destruct (Pos.compare_spec my mz); try discriminate;
    destruct (Pos.compare_spec mx mz); try reflexivity; try lia.
Qed.

Lemma SFcompare_Eq_sym (x y : number) :
  SFcompare x y = Some Eq -> SFcompare y x = Some Eq.
Proof. intros H. rewrite SFcompare_antisym, H. reflexivity. Qed.

Lemma SFcompare_Eq_r (x y z : number) :
  SFcompare y z = Some Eq -> SFcompare x y = SFcompare x z.
Proof.
  intros H.
  rewrite (SFcompare_antisym y x), (SFcompare_antisym z x).
  f_equal. symmetry. apply SFcompare_Eq_l, SFcompare_Eq_sym, H.
Qed.

Lemma SFcompare_not_nan (x y : number) (c : comparison) :
  SFcompare x y = Some c -> is_nan x = false /\ is_nan y = false.
Proof. destruct x, y; simpl; try discriminate; auto. Qed.

Lemma SFcompare_total (x y : number) :
  is_nan x = false -> is_nan y = false -> exists c, SFcompare x y = Some c.
Proof. destruct x, y; simpl; try discriminate; eauto. Qed.

Lemma ltb_irrefl (x : number) : ltb x x = false.
Proof.
  unfold ltb, SFltb. pose proof (SFcompare_antisym x x) as H.
  destruct (SFcompare x x) as [[]|]; simpl in H; congruence.
Qed.

Lemma ltb_trans (x y z : number) :
  ltb x y = true -> ltb y z = true -> ltb x z = true.
Proof.
  unfold ltb, SFltb. intros Hxy Hyz.
  destruct (SFcompare x y) as [[]|] eqn:Exy; try discriminate.
  destruct (SFcompare y z) as [[]|] eqn:Eyz; try discriminate.
  rewrite (SFcompare_Lt_trans x y z Exy Eyz). reflexivity.
Qed.

Lemma ltb_leb_incl (x y : number) : ltb x y = true -> leb x y = true.
Proof.
  unfold ltb, leb, SFltb, SFleb.
  destruct (SFcompare x y) as [[]|]; congruence.
Qed.

Lemma strict_eq_leb (x y : number) : strict_eq x y = true -> leb x y = true.
Proof.
  unfold strict_eq, leb, SFeqb, SFleb.
  destruct (SFcompare x y) as [[]|]; congruence.
Qed.

Lemma strict_eq_sym (x y : number) : strict_eq x y = strict_eq y x.
Proof.
  unfold strict_eq, SFeqb. rewrite (SFcompare_antisym x y).
  destruct (SFcompare x y) as [[]|]; reflexivity.
Qed.

Lemma strict_eq_refl (x : number) : is_nan x = false -> strict_eq x x = true.
Proof.
  intros Hx. pose proof (ltb_irrefl x) as Hlt.
  destruct (SFcompare_total x x Hx Hx) as [c Hc].
  pose proof (SFcompare_antisym x x) as Ha.
  unfold strict_eq, SFeqb. unfold ltb, SFltb in Hlt.
  rewrite Hc in *. destruct c; simpl in *; congruence.
Qed.

Lemma leb_refl (x : number) : is_nan x = false -> leb x x = true.
Proof. intros Hx. apply strict_eq_leb, strict_eq_refl, Hx. Qed.

(** [<=] is the disjunction of [<] and [===]. *)
Lemma leb_ltb_or_eq (x y : number) : leb x y = ltb x y || strict_eq x y.
Proof.
  unfold leb, ltb, strict_eq, SFleb, SFltb, SFeqb.
  destruct (SFcompare x y) as [[]|]; reflexivity.
Qed.

(** On numbers other than [NaN] the order is total. *)
Lemma not_ltb_leb (x y : number) :
  is_nan x = false -> is_nan y = false -> ltb x y = false -> leb y x = true.
Proof.
  intros Hx Hy. unfold ltb, leb, SFltb, SFleb.
  rewrite (SFcompare_antisym x y).
  destruct (SFcompare_total x y Hx Hy) as [c ->].
  destruct c; simpl; congruence.
Qed.

Lemma leb_not_ltb (x y : number) : leb x y = true -> ltb y x = false.
Proof.
  unfold ltb, leb, SFltb, SFleb. rewrite (SFcompare_antisym x y).
  destruct (SFcompare x y) as [[]|]; simpl; congruence.
Qed.

Lemma leb_not_nan (x y : number) :
  leb x y = true -> is_nan x = false /\ is_nan y = false.
Proof.
  unfold leb, SFleb. destruct (SFcompare x y) as [c|] eqn:E; try discriminate.
  intros _. exact (SFcompare_not_nan x y c E).
Qed.

Lemma ltb_not_nan (x y : number) :
  ltb x y = true -> is_nan x = false /\ is_nan y = false.
Proof. intros H. apply leb_not_nan, ltb_leb_incl, H. Qed.

Lemma strict_eq_ltb_l (x y z : number) :
  strict_eq x y = true -> ltb x z = ltb y z.
Proof.
  unfold strict_eq, ltb, SFeqb, SFltb. intros H.
  destruct (SFcompare x y) as [[]|] eqn:E; try discriminate.
  rewrite (SFcompare_Eq_l x y z E). reflexivity.
Qed.

Lemma strict_eq_ltb_r (x y z : number) :
  strict_eq y z = true -> ltb x y = ltb x z.
Proof.
  unfold strict_eq, ltb, SFeqb, SFltb. intros H.
  destruct (SFcompare y z) as [[]|] eqn:E; try discriminate.
  rewrite (SFcompare_Eq_r x y z E). reflexivity.
Qed.

Lemma strict_eq_leb_l (x y z : number) :
  strict_eq x y = true -> leb x z = leb y z.
Proof.
  unfold strict_eq, leb, SFeqb, SFleb. intros H.
  destruct (SFcompare x y) as [[]|] eqn:E; try discriminate.
  rewrite (SFcompare_Eq_l x y z E). reflexivity.
Qed.


Lemma ltb_leb_trans (x y z : number) :
  ltb x y = true -> leb y z = true -> ltb x z = true.
Proof.
  intros Hxy Hyz. rewrite leb_ltb_or_eq in Hyz.
  apply orb_true_iff in Hyz as [Hyz|Hyz].
  - exact (ltb_trans x y z Hxy Hyz).
  - rewrite <- (strict_eq_ltb_r x y z Hyz). exact Hxy.
Qed.

Lemma leb_ltb_trans (x y z : number) :
  leb x y = true -> ltb y z = true -> ltb x z = true.
Proof.
  intros Hxy Hyz. rewrite leb_ltb_or_eq in Hxy.
  apply orb_true_iff in Hxy as [Hxy|Hxy].
  - exact (ltb_trans x y z Hxy Hyz).
  - rewrite (strict_eq_ltb_l x y z Hxy). exact Hyz.
Qed.

Lemma leb_trans (x y z : number) :
  leb x y = true -> leb y z = true -> leb x z = true.
Proof.
  intros Hxy Hyz. rewrite leb_ltb_or_eq in Hxy.
  apply orb_true_iff in Hxy as [Hxy|Hxy].
  - apply ltb_leb_incl. exact (ltb_leb_trans x y z Hxy Hyz).
  - rewrite (strict_eq_leb_l x y z Hxy). exact Hyz.
Qed.

Lemma leb_antisym (x y : number) :
  leb x y = true -> leb y x = true -> strict_eq x y = true.
Proof.
  intros Hxy Hyx. rewrite leb_ltb_or_eq in Hxy.
  apply orb_true_iff in Hxy as [Hxy|Hxy]; [|exact Hxy].
  rewrite (leb_not_ltb y x Hyx) in Hxy. discriminate.
Qed.

Lemma finite_not_nan (x : number) : is_finite x = true -> is_nan x = false.
Proof. destruct x; simpl; congruence. Qed.

(** Every real-valued number lies strictly between the two sentinels of
    the extremum scan. *)
Lemma finite_ltb_Infinity (x : number) :
  is_finite x = true -> ltb x Infinity = true.
Proof. destruct x as [s|s| |s m e]; simpl; try discriminate; reflexivity. Qed.

Lemma finite_gtb_neg_Infinity (x : number) :
  is_finite x = true -> gtb x (neg Infinity) = true.
Proof. destruct x as [s|s| |s m e]; simpl; try discriminate; reflexivity. Qed.

End NumberOrder.

(** ** The extremum trackers *)

Section Extremum.

Variable better : number -> number -> bool.
Variable sentinel : number.
Variable key : Candle -> number.

Hypothesis better_irrefl : forall x, better x x = false.
Hypothesis better_trans : forall x y z,
  better x y = true -> better y z = true -> better x z = true.
Hypothesis better_total : forall x y z,
  is_nan y = false -> is_nan z = false ->
  better x y = true -> better z y = false -> better x z = true.
Hypothesis better_sentinel : forall x,
  is_finite x = true -> better x sentinel = true.

Local Abbreviation track := (track better key).
Local Abbreviation tracked := (tracked better sentinel key).
Local Abbreviation finite_key := (finite_key key).

Lemma track_step (seen : list Candle) acc (c : Candle) :
  Forall finite_key seen -> finite_key c ->
  tracked seen acc -> tracked (seen ++ [c]) (track acc c).
Proof.
  intros Hseen Hc Hacc. unfold track.
  destruct Hacc as [-> | i ci Hi Hbest Hfirst]; simpl.
  - rewrite (better_sentinel _ Hc).
    apply (tracked_at _ _ _ [c] 0 c); [reflexivity| |intros k ck Hk; lia].
    intros c' Hc'. apply list_elem_of_singleton in Hc' as ->.
    apply better_irrefl.
  - assert (Hci : finite_key ci).
    { exact (Forall_lookup_1 _ _ _ _ Hseen Hi). }
    destruct (better (key c) (key ci)) eqn:Hb.
    + apply (tracked_at _ _ _ (seen ++ [c]) (length seen) c).
      * rewrite lookup_app_r by lia. rewrite Nat.sub_diag. reflexivity.
      * intros c' Hc'. apply elem_of_app in Hc' as [Hc'|Hc'].
        -- destruct (better (key c') (key c)) eqn:Hb'; [|reflexivity].
           rewrite <- (Hbest c' Hc').
           symmetry. exact (better_trans _ _ _ Hb' Hb).
        -- apply list_elem_of_singleton in Hc' as ->. apply better_irrefl.
      * intros k ck Hk Hlk. rewrite lookup_app_l in Hlk by exact Hk.
        assert (Hck : finite_key ck).
        { exact (Forall_lookup_1 _ _ _ _ Hseen Hlk). }
        apply (better_total _ (key ci)); auto using finite_not_nan.
        apply Hbest. eapply list_elem_of_lookup_2, Hlk.
    + apply (tracked_at _ _ _ (seen ++ [c]) i ci).
      * apply lookup_app_l_Some, Hi.
      * intros c' Hc'. apply elem_of_app in Hc' as [Hc'|Hc'].
        -- apply Hbest, Hc'.
        -- apply list_elem_of_singleton in Hc' as ->. exact Hb.
      * intros k ck Hk Hlk. apply (Hfirst k ck Hk).
        apply lookup_lt_Some in Hi.
        rewrite lookup_app_l in Hlk by lia. exact Hlk.
Qed.

Lemma track_fold (candles : list Candle) :
  Forall finite_key candles ->
  tracked candles (fold_left track candles (sentinel, None)).
Proof.
  induction candles as [|c seen IH] using rev_ind; intros Hall.
  - apply tracked_none. reflexivity.
  - apply Forall_app in Hall as [Hseen Hc].
    rewrite fold_left_app. simpl.
    apply track_step; [exact Hseen|exact (Forall_inv Hc)|exact (IH Hseen)].
Qed.

(** On a window that is not empty the sentinel has been replaced. *)
Lemma track_fold_nonempty (candles : list Candle) :
  candles <> [] -> Forall finite_key candles ->
  exists i ci,
    candles !! i = Some ci /\
    fold_left track candles (sentinel, None) = (key ci, Some (millis ci)) /\
    (forall c, c ∈ candles -> better (key c) (key ci) = false) /\
    (forall k ck, (k < i)%nat -> candles !! k = Some ck ->
                  better (key ci) (key ck) = true).
Proof.
  intros Hne Hall.
  destruct (track_fold candles Hall) as [Hnil | i ci Hi Hbest Hfirst];
    [contradiction|].
  exists i, ci. auto.
Qed.

End Extremum.

(** ** The loop as two trackers *)

Lemma body_tracks (v : Loop.vars) (c : Candle) :
  (Loop.minPrice (Loop.body v c), Loop.minTimestamp (Loop.body v c))
    = track ltb low (Loop.minPrice v, Loop.minTimestamp v) c
  /\ (Loop.maxPrice (Loop.body v c), Loop.maxTimestamp (Loop.body v c))
    = track gtb high (Loop.maxPrice v, Loop.maxTimestamp v) c.
Proof.
  unfold Loop.body, track, low, high, millis; simpl.
  destruct (ltb (at_ c 3) (Loop.minPrice v)); simpl;
    destruct (gtb (at_ c 2) (Loop.maxPrice v)); simpl; split; reflexivity.
Qed.

Lemma fold_body_tracks (candles : list Candle) (v : Loop.vars) :
  let v' := fold_left Loop.body candles v in
  (Loop.minPrice v', Loop.minTimestamp v')
    = fold_left (track ltb low) candles (Loop.minPrice v, Loop.minTimestamp v)
  /\ (Loop.maxPrice v', Loop.maxTimestamp v')
    = fold_left (track gtb high) candles (Loop.maxPrice v, Loop.maxTimestamp v).
Proof.
  revert v. induction candles as [|c candles IH]; intros v; simpl.
  - split; reflexivity.
  - destruct (IH (Loop.body v c)) as [Hmin Hmax].
    destruct (body_tracks v c) as [Hmin1 Hmax1].
    rewrite Hmin, Hmax, Hmin1, Hmax1. split; reflexivity.
Qed.

Lemma forEach_tracks (candles : list Candle) :
  (Loop.minPrice (Loop.forEach candles), Loop.minTimestamp (Loop.forEach candles))
    = fold_left (track ltb low) candles (Infinity, None)
  /\ (Loop.maxPrice (Loop.forEach candles), Loop.maxTimestamp (Loop.forEach candles))
    = fold_left (track gtb high) candles (neg Infinity, None).
Proof. exact (fold_body_tracks candles Loop.init). Qed.

Lemma gtb_total (x y z : number) :
  is_nan y = false -> is_nan z = false ->
  gtb x y = true -> gtb z y = false -> gtb x z = true.
Proof.
  unfold gt. intros Hy Hz Hxy Hzy.
  apply (leb_ltb_trans z y x); [|exact Hxy].
  apply not_ltb_leb; assumption.
Qed.

Lemma ltb_total (x y z : number) :
  is_nan y = false -> is_nan z = false ->
  ltb x y = true -> ltb z y = false -> ltb x z = true.
Proof.
  intros Hy Hz Hxy Hzy.
  apply (ltb_leb_trans x y z); [exact Hxy|].
  apply not_ltb_leb; assumption.
Qed.

(** The scan on a window of well-formed candles, stated on the loop
    variables. *)
Lemma forEach_min (window : list Candle) :
  window <> [] -> Forall real_prices window ->
  exists i ci,
    window !! i = Some ci /\
    Loop.minPrice (Loop.forEach window) = low ci /\
    Loop.minTimestamp (Loop.forEach window) = Some (millis ci) /\
    (forall c, c ∈ window -> leb (low ci) (low c) = true) /\
    (forall k ck, (k < i)%nat -> window !! k = Some ck ->
                  ltb (low ci) (low ck) = true).
Proof.
  intros Hne Hwf.
  assert (Hfin : Forall (finite_key low) window).
  { eapply Forall_impl; [exact Hwf|]. intros c [_ H]. exact H. }
  destruct (track_fold_nonempty ltb Infinity low ltb_irrefl ltb_trans ltb_total
              finite_ltb_Infinity window Hne Hfin)
    as (i & ci & Hi & Hfold & Hbest & Hfirst).
  destruct (forEach_tracks window) as [Hmin _].
  rewrite Hfold in Hmin. injection Hmin as Hp Ht.
  exists i, ci. repeat split; auto.
  intros c Hc. apply not_ltb_leb; [| |apply Hbest, Hc].
  - apply finite_not_nan.
    apply list_elem_of_lookup_1 in Hc as [k Hk].
    exact (Forall_lookup_1 _ _ _ _ Hfin Hk).
  - apply finite_not_nan. exact (Forall_lookup_1 _ _ _ _ Hfin Hi).
Qed.

Lemma forEach_max (window : list Candle) :
  window <> [] -> Forall real_prices window ->
  exists j cj,
    window !! j = Some cj /\
    Loop.maxPrice (Loop.forEach window) = high cj /\
    Loop.maxTimestamp (Loop.forEach window) = Some (millis cj) /\
    (forall c, c ∈ window -> geb (high cj) (high c) = true) /\
    (forall k ck, (k < j)%nat -> window !! k = Some ck ->
                  gtb (high cj) (high ck) = true).
Proof.
  intros Hne Hwf.
  assert (Hfin : Forall (finite_key high) window).
  { eapply Forall_impl; [exact Hwf|]. intros c [H _]. exact H. }
  assert (Hirr : forall x, gtb x x = false) by (intros x; apply ltb_irrefl).
  assert (Htr : forall x y z, gtb x y = true -> gtb y z = true -> gtb x z = true).
  { unfold gt. intros x y z Hxy Hyz. exact (ltb_trans z y x Hyz Hxy). }
  destruct (track_fold_nonempty gtb (neg Infinity) high Hirr Htr gtb_total
              finite_gtb_neg_Infinity window Hne Hfin)
    as (j & cj & Hj & Hfold & Hbest & Hfirst).
  destruct (forEach_tracks window) as [_ Hmax].
  rewrite Hfold in Hmax. injection Hmax as Hp Ht.
  exists j, cj. repeat split; auto.
  intros c Hc. unfold ge. apply not_ltb_leb; [| |apply Hbest, Hc].
  - apply finite_not_nan. exact (Forall_lookup_1 _ _ _ _ Hfin Hj).
  - apply finite_not_nan.
    apply list_elem_of_lookup_1 in Hc as [k Hk].
    exact (Forall_lookup_1 _ _ _ _ Hfin Hk).
Qed.

(** ** The client and the analyzer, run in a world *)

Lemma same_host_refl (w : World) : same_host w w.
Proof. repeat split. Qed.

Lemma eval_exec {A} (m : M A) (w : World) : m w = (eval m w, exec m w).
Proof. unfold eval, exec. destruct (m w); reflexivity. Qed.

(** The client always returns, and what it returns is read off the answer
    of the network. *)
Lemma getOHLCV_run (network_ poolAddress timeframe : string) (aggregate limit : Z)
    (w : World) :
  let url := GeckoTerminalAPI.ohlcv_url network_ poolAddress timeframe aggregate limit in
  let m := GeckoTerminalAPI.getOHLCV network_ poolAddress timeframe aggregate limit in
  same_host w (exec m w) /\ eval m w = Returns (client_value (network w url)).
Proof.
  intros url m.
  unfold m, eval, exec, GeckoTerminalAPI.getOHLCV, try_catch, client_value.
  unfold mbind, M_bind, fetch. fold url.
  destruct (network w url) as [|r]; simpl; [split; [repeat split|reflexivity]|].
  unfold Response_json. destruct (json_body r) as [data|]; simpl;
    [|split; [repeat split|reflexivity]].
  destruct data; simpl; split; try reflexivity; repeat split.
Qed.

(** The analyzer in one equation: outside the typed fragment nothing is
    said, inside it the result is the summary of the filtered window, or no
    summary when that window is empty. *)
Lemma analyze_eval (trade : TradeRecord) (w : World) :
  same_host w (exec (analyzeTradePerformance trade) w) /\
  eval (analyzeTradePerformance trade) w
    = match asSeries (client_value (network w (trade_url trade))) with
      | None => Unmodelled
      | Some ohlcvData =>
          let relevant :=
            relevantCandles (buyTime w trade) (sellTime w trade) ohlcvData in
          Returns {| trade := trade;
                     analysis := if Nat.eqb (length relevant) 0 then None
                                 else Some (summarize trade relevant) |}
      end.
Proof.
  destruct (getOHLCV_run "solana" (poolAddress trade) "hour" 1 1000 w)
    as [Hhost Hval].
  fold (trade_url trade) in Hval.
  unfold eval, exec, analyzeTradePerformance, mbind, M_bind in *.
  destruct (GeckoTerminalAPI.getOHLCV "solana" (poolAddress trade) "hour" 1 1000 w)
    as [o w1]; simpl in Hhost, Hval; subst o.
  unfold typed_series.
  destruct (asSeries (client_value (network w (trade_url trade))))
    as [ohlcvData|]; [|simpl; split; [exact Hhost|reflexivity]].
  destruct Hhost as (Hn & Hc & Hg & Hi & Hp).
  assert (Hb : buyTime w1 trade = buyTime w trade)
    by (unfold buyTime; rewrite Hg; reflexivity).
  assert (Hs : sellTime w1 trade = sellTime w trade)
    by (unfold sellTime; rewrite Hg, Hc; reflexivity).
  destruct ohlcvData as [|c cs]; [simpl; split; [unfold same_host; auto|reflexivity]|].
  unfold mret, M_ret. cbn [fst snd].
  change (Nat.eqb (length (c :: cs)) 0) with false. cbv iota.
  unfold reads. cbn [fst snd]. rewrite Hb, Hs.
  set (relevant := relevantCandles (buyTime w trade) (sellTime w trade) (c :: cs)).
  destruct (Nat.eqb (length relevant) 0); cbn [fst snd];
    (split; [unfold same_host; auto|reflexivity]).
Qed.

(** The analyzer on a payload that is an array of arrays of numbers. *)
Lemma analyze_run (trade : TradeRecord) (w : World) (ohlcvData : list Candle) :
  asSeries (client_value (network w (trade_url trade))) = Some ohlcvData ->
  let relevant := relevantCandles (buyTime w trade) (sellTime w trade) ohlcvData in
  eval (analyzeTradePerformance trade) w
    = Returns {| trade := trade;
                 analysis := if Nat.eqb (length relevant) 0 then None
                             else Some (summarize trade relevant) |}.
Proof.
  intros Hseries relevant.
  destruct (analyze_eval trade w) as [_ H]. rewrite H, Hseries. reflexivity.
Qed.

(** Where a summary comes from. *)
Lemma analyze_Some (trade : TradeRecord) (w : World) (r : AnalyzedTrade)
    (a : Analysis) :
  eval (analyzeTradePerformance trade) w = Returns r -> analysis r = Some a ->
  exists ohlcvData,
    asSeries (client_value (network w (trade_url trade))) = Some ohlcvData /\
    let relevant := relevantCandles (buyTime w trade) (sellTime w trade) ohlcvData in
    relevant <> [] /\ a = summarize trade relevant.
Proof.
  intros Hr Ha. destruct (analyze_eval trade w) as [_ H]. rewrite H in Hr.
  destruct (asSeries (client_value (network w (trade_url trade))))
    as [ohlcvData|]; [|discriminate].
  exists ohlcvData. split; [reflexivity|]. simpl in *.
  injection Hr as <-. simpl in Ha.
  destruct (relevantCandles (buyTime w trade) (sellTime w trade) ohlcvData)
    as [|c cs] eqn:E; simpl in Ha; [discriminate|].
  injection Ha as <-. split; [discriminate|reflexivity].
Qed.

Lemma ToBoolean_spec (x : number) :
  Number.ToBoolean x = negb (is_nan x) && negb (strict_eq x (of_Z 0)).
Proof. destruct x as [s|s| |s m e]; try reflexivity; destruct s; reflexivity. Qed.

Lemma in_window_spec (buy sell : number) (candle : Candle) :
  in_window buy sell candle = true
  <-> leb buy (millis candle) = true /\ leb (millis candle) sell = true.
Proof. unfold in_window, geb, millis. apply andb_true_iff. Qed.

Lemma relevantCandles_spec (buy sell : number) (ohlcvData : list Candle)
    (candle : Candle) :
  candle ∈ relevantCandles buy sell ohlcvData
  <-> candle ∈ ohlcvData /\
      leb buy (millis candle) = true /\ leb (millis candle) sell = true.
Proof.
  unfold relevantCandles. rewrite !list_elem_of_In, filter_In, in_window_spec.
  reflexivity.
Qed.

(** ** The derived percentages *)

Lemma summarize_pnlPercent (trade : TradeRecord) (window : list Candle) :
  pnlPercent (summarize trade window)
  = match sellPrice trade with
    | Some sell =>
        if Number.ToBoolean sell
        then Some (mul (div (sub sell (buyPrice trade)) (buyPrice trade)) (of_Z 100))
        else None
    | None => None
    end.
Proof. reflexivity. Qed.

Lemma summarize_capturedPercent (trade : TradeRecord) (window : list Candle) :
  let a := summarize trade window in
  capturedPercent a
  = match pnlPercent a with
    | Some pnl =>
        if gtb (maxGainPercent a) (of_Z 0)
        then Some (mul (div pnl (maxGainPercent a)) (of_Z 100))
        else None
    | None => None
    end.
Proof. reflexivity. Qed.

Lemma summarize_candleCount (trade : TradeRecord) (window : list Candle) :
  candleCount (summarize trade window) = length window.
Proof. reflexivity. Qed.


(** ** The typed view of a payload *)

Lemma asNumber_raw (l : list value) (candle : Candle) :
  mapM asNumber l = Some candle -> l = map VNum candle.
Proof.
  intros H. apply mapM_Some_1 in H.
  induction H as [|v n l candle Hv _ IH]; [reflexivity|].
  destruct v; try discriminate. injection Hv as ->. simpl. f_equal. exact IH.
Qed.

Lemma asSeries_raw (l : list value) (candles : list Candle) :
  asSeries (VArr l) = Some candles -> Forall2 raw_candle l candles.
Proof.
  simpl. intros H. apply mapM_Some_1 in H.
  eapply Forall2_impl; [exact H|]. intros v c Hc.
  destruct v; try discriminate.
  unfold raw_candle. f_equal. apply asNumber_raw, Hc.
Qed.

(** ** More on the scan *)

Lemma summarize_minPrice (trade : TradeRecord) (window : list Candle) :
  minPrice (summarize trade window) = Loop.minPrice (Loop.forEach window).
Proof. reflexivity. Qed.

Lemma summarize_maxPrice (trade : TradeRecord) (window : list Candle) :
  maxPrice (summarize trade window) = Loop.maxPrice (Loop.forEach window).
Proof. reflexivity. Qed.

Lemma summarize_minTimestamp (trade : TradeRecord) (window : list Candle) :
  minTimestamp (summarize trade window) = Loop.minTimestamp (Loop.forEach window).
Proof. reflexivity. Qed.

Lemma summarize_maxTimestamp (trade : TradeRecord) (window : list Candle) :
  maxTimestamp (summarize trade window) = Loop.maxTimestamp (Loop.forEach window).
Proof. reflexivity. Qed.

(** A window contained in another has a narrower range. *)
Lemma forEach_subset (window window' : list Candle) :
  (forall c, c ∈ window -> c ∈ window') ->
  window <> [] -> Forall real_prices window' ->
  leb (Loop.minPrice (Loop.forEach window')) (Loop.minPrice (Loop.forEach window)) = true
  /\ leb (Loop.maxPrice (Loop.forEach window)) (Loop.maxPrice (Loop.forEach window')) = true.
Proof.
  intros Hsub Hne Hwf'.
  assert (Hwf : Forall real_prices window).
  { apply Forall_forall. intros c Hc.
    exact (proj1 (Forall_forall _ _) Hwf' c (Hsub c Hc)). }
  assert (Hne' : window' <> []).
  { destruct window as [|c0 l]; [contradiction|].
    intros ->. specialize (Hsub c0 (list_elem_of_here _ _)).
    apply elem_of_nil in Hsub. exact Hsub. }
  destruct (forEach_min window Hne Hwf) as (i & ci & Hi & -> & _).
  destruct (forEach_max window Hne Hwf) as (j & cj & Hj & -> & _).
  destruct (forEach_min window' Hne' Hwf') as (i' & ci' & _ & -> & _ & Hmin & _).
  destruct (forEach_max window' Hne' Hwf') as (j' & cj' & _ & -> & _ & Hmax & _).
  split.
  - apply Hmin, Hsub. eapply list_elem_of_lookup_2, Hi.
  - apply (Hmax cj), Hsub. eapply list_elem_of_lookup_2, Hj.
Qed.

Lemma relevantCandles_real_prices (buy sell : number) (data : list Candle) :
  Forall real_prices data -> Forall real_prices (relevantCandles buy sell data).
Proof.
  intros H. apply Forall_forall. intros c Hc.
  apply relevantCandles_spec in Hc as [Hc _].
  exact (proj1 (Forall_forall _ _) H c Hc).
Qed.

Lemma filter_length_mono {A} (p q : A -> bool) (l : list A) :
  (forall x, p x = true -> q x = true) ->
  (length (List.filter p l) <= length (List.filter q l))%nat.
Proof.
  intros Hpq. induction l as [|x l IH]; simpl; [lia|].
  destruct (p x) eqn:Hp.
  - rewrite (Hpq x Hp). simpl. lia.
  - destruct (q x); simpl; lia.
Qed.

(** The loop reads the timestamp, the high and the low of a candle, and
    nothing else. *)
Lemma body_same_reading (v : Loop.vars) (c c' : Candle) :
  same_reading c c' -> Loop.body v c = Loop.body v c'.
Proof. intros (H0 & H2 & H3). unfold Loop.body. rewrite H0, H2, H3. reflexivity. Qed.

Lemma fold_body_same_reading (l l' : list Candle) (v : Loop.vars) :
  Forall2 same_reading l l' -> fold_left Loop.body l v = fold_left Loop.body l' v.
Proof.
  intros H. revert v. induction H as [|c c' l l' Hc _ IH]; intros v; simpl.
  - reflexivity.
  - rewrite (body_same_reading v c c' Hc). apply IH.
Qed.

Lemma relevantCandles_same_reading (buy sell : number) (l l' : list Candle) :
  Forall2 same_reading l l' ->
  Forall2 same_reading (relevantCandles buy sell l) (relevantCandles buy sell l').
Proof.
  intros H. induction H as [|c c' l l' Hc _ IH]; simpl; [constructor|].
  assert (Hw : in_window buy sell c = in_window buy sell c').
  { unfold in_window. destruct Hc as (-> & _). reflexivity. }
  rewrite Hw. destruct (in_window buy sell c'); [constructor; assumption|exact IH].
Qed.

(** ** The worlds the clients leave *)

Lemma analyze_exec (trade : TradeRecord) (w : World) :
  exec (analyzeTradePerformance trade) w
  = exec (GeckoTerminalAPI.getOHLCV "solana" (poolAddress trade) "hour" 1 1000) w.
Proof.
  unfold exec, analyzeTradePerformance, mbind, M_bind.
  destruct (GeckoTerminalAPI.getOHLCV "solana" (poolAddress trade) "hour" 1 1000 w)
    as [[v| |] w1]; try reflexivity.
  unfold typed_series. destruct (asSeries v) as [ohlcvData|]; [|reflexivity].
  unfold mret, M_ret, reads. cbn [fst snd].
  destruct (Nat.eqb (length ohlcvData) 0); [reflexivity|].
  destruct (Nat.eqb (length (relevantCandles _ _ ohlcvData)) 0); reflexivity.
Qed.

Lemma getOHLCV_console (network_ poolAddress timeframe : string)
    (aggregate limit : Z) (w : World) :
  let url := GeckoTerminalAPI.ohlcv_url network_ poolAddress timeframe aggregate limit in
  console (exec (GeckoTerminalAPI.getOHLCV network_ poolAddress timeframe aggregate limit) w)
  = console w ++
    match caught_error (network w url) with
    | Some e => [("GeckoTerminal OHLCV error:", e)]
    | None => []
    end.
Proof.
  intros url.
  unfold exec, GeckoTerminalAPI.getOHLCV, try_catch, caught_error.
  unfold mbind, M_bind, fetch. fold url.
  destruct (network w url) as [|r]; simpl; [reflexivity|].
  unfold Response_json. destruct (json_body r) as [data|]; simpl; [|reflexivity].
  destruct data; simpl; rewrite ?app_nil_r; reflexivity.
Qed.

(** ** The DexScreener client *)

Lemma searchToken_run (enc : string -> string) (query : string) (w : World) :
  let m := DexScreenerAPI.searchToken enc query in
  let answer := network w (DexScreenerAPI.search_url enc query) in
  same_host w (exec m w) /\
  eval m w = Returns
    match caught_error answer, answer with
    | None, Resolved {| json_body := Some data |} =>
        or_else (opt_member data "pairs") (VArr [])
    | _, _ => VArr []
    end /\
  console (exec m w)
  = console w ++ match caught_error answer with
                 | Some e => [("DexScreener search error:", e)]
                 | None => []
                 end.
Proof.
  intros m answer. unfold m, answer, eval, exec, DexScreenerAPI.searchToken,
    try_catch, caught_error.
  unfold mbind, M_bind, fetch.
  destruct (network w (DexScreenerAPI.search_url enc query)) as [|[st body]];
    simpl; [repeat split|].
  unfold Response_json. destruct body as [data|]; simpl; [|repeat split].
  destruct data; simpl; rewrite ?app_nil_r; repeat split.
Qed.

Lemma getTokenPairs_run (chainId tokenAddress : string) (w : World) :
  let m := DexScreenerAPI.getTokenPairs chainId tokenAddress in
  let answer := network w (DexScreenerAPI.token_pairs_url chainId tokenAddress) in
  same_host w (exec m w) /\
  eval m w = Returns
    match answer with
    | Resolved {| json_body := Some data |} => or_else data (VArr [])
    | _ => VArr []
    end /\
  console (exec m w)
  = console w ++ match answer with
                 | Rejected => [("DexScreener token pairs error:", FetchFailed)]
                 | Resolved {| json_body := None |} =>
                     [("DexScreener token pairs error:", SyntaxError)]
                 | _ => []
                 end.
Proof.
  intros m answer. unfold m, answer, eval, exec, DexScreenerAPI.getTokenPairs,
    try_catch.
  unfold mbind, M_bind, fetch.
  destruct (network w (DexScreenerAPI.token_pairs_url chainId tokenAddress))
    as [|[st body]]; simpl; [repeat split|].
  unfold Response_json. destruct body as [data|]; simpl; [|repeat split].
  rewrite app_nil_r. repeat split.
Qed.

(** ** The search filter *)

Lemma is_solana_inr (p : value) (b : bool) :
  TokenSearch.is_solana p = inr b <-> nullish p = false /\ b = chain_is_solana p.
Proof.
  unfold TokenSearch.is_solana, chain_is_solana.
  destruct p; simpl; split;
    try (intros [= <-]; auto); try (intros [H ->]; congruence);
    try discriminate; try (intros [H _]; discriminate).
Qed.

Lemma is_solana_inl (p : value) (e : error) :
  TokenSearch.is_solana p = inl e <-> nullish p = true /\ e = TypeError.
Proof.
  unfold TokenSearch.is_solana.
  destruct p; simpl; split;
    try (intros [= <-]; auto); try (intros [_ ->]; reflexivity);
    try discriminate; try (intros [H _]; discriminate).
Qed.

Lemma filter_solana_inr (l : list value) (kept : list value) :
  TokenSearch.filter_solana l = inr kept
  <-> Forall (fun p => nullish p = false) l /\ kept = List.filter chain_is_solana l.
Proof.
  revert kept. induction l as [|p l IH]; intros kept; simpl.
  - split; [intros [= <-]; auto|intros [_ ->]; reflexivity].
  - destruct (TokenSearch.is_solana p) as [e|b] eqn:Hp.
    + apply is_solana_inl in Hp as [Hp _].
      split; [discriminate|]. intros [Hall _].
      apply Forall_inv in Hall. congruence.
    + apply is_solana_inr in Hp as [Hp ->].
      destruct (TokenSearch.filter_solana l) as [e|rest].
      * split; [discriminate|]. intros [Hall _].
        apply Forall_inv_tail in Hall.
        discriminate (proj2 (IH (List.filter chain_is_solana l)) (conj Hall eq_refl)).
      * destruct (proj1 (IH rest) eq_refl) as [Hall ->].
        split.
        -- intros [= <-]. split; [constructor; assumption|reflexivity].
        -- intros [_ ->]. reflexivity.
Qed.

Lemma filter_solana_inl (l : list value) (e : error) :
  TokenSearch.filter_solana l = inl e
  <-> Exists (fun p => nullish p = true) l /\ e = TypeError.
Proof.
  revert e. induction l as [|p l IH]; intros e; simpl.
  - split; [discriminate|]. intros [H _]. inversion H.
  - destruct (TokenSearch.is_solana p) as [e'|b] eqn:Hp.
    + apply is_solana_inl in Hp as [Hp ->].
      split; [intros [= <-]; split; [left; exact Hp|reflexivity]
             |intros [_ ->]; reflexivity].
    + apply is_solana_inr in Hp as [Hp _].
      destruct (TokenSearch.filter_solana l) as [e'|rest].
      * destruct (proj1 (IH e') eq_refl) as [Hex ->].
        split; [intros [= <-]; split; [right; exact Hex|reflexivity]
               |intros [_ ->]; reflexivity].
      * split; [discriminate|]. intros [Hex _].
        apply Exists_cons in Hex as [Hex|Hex]; [congruence|].
        discriminate (proj2 (IH TypeError) (conj Hex eq_refl)).
Qed.

(** ** The search handler *)

Lemma handleSearch_searching (enc trim : string -> string)
    (st : TokenSearch.state) (w : World) :
  trim (TokenSearch.query st) <> "" ->
  let m := DexScreenerAPI.searchToken enc (TokenSearch.query st) in
  let pairs := pairs_value (network w (DexScreenerAPI.search_url enc (TokenSearch.query st))) in
  TokenSearch.handleSearch enc trim st w
  = match TokenSearch.solanaPairs pairs with
    | inl e =>
        (Throws e,
         {| TokenSearch.query := TokenSearch.query st;
            TokenSearch.results := TokenSearch.results st;
            TokenSearch.loading := true |},
         exec m w)
    | inr solana =>
        (Returns tt,
         {| TokenSearch.query := TokenSearch.query st;
            TokenSearch.results := firstn 10 solana;
            TokenSearch.loading := false |},
         exec m w)
    end.
Proof.
  intros Hq m pairs. subst m pairs.
  unfold TokenSearch.handleSearch, truthy_string.
  destruct (String.eqb_spec (trim (TokenSearch.query st)) ""); [contradiction|].
  cbn [negb].
  rewrite (eval_exec (DexScreenerAPI.searchToken enc (TokenSearch.query st)) w).
  destruct (searchToken_run enc (TokenSearch.query st) w) as (_ & -> & _).
  reflexivity.
Qed.

Lemma chain_is_solana_true (p : value) :
  chain_is_solana p = true <-> opt_member p "chainId" = VStr "solana".
Proof.
  unfold chain_is_solana. destruct (opt_member p "chainId"); split;
    try discriminate.
  - intros H. apply String.eqb_eq in H. congruence.
  - intros [= ->]. reflexivity.
Qed.

(** ** Equality of ids *)

Lemma strict_eq_l (x y z : number) :
  strict_eq x y = true -> strict_eq x z = strict_eq y z.
Proof.
  unfold strict_eq, SFeqb. intros H.
  destruct (SFcompare x y) as [[]|] eqn:E; try discriminate.
  rewrite (SFcompare_Eq_l x y z E). reflexivity.
Qed.

Lemma strict_eq_r (x y z : number) :
  strict_eq y z = true -> strict_eq x y = strict_eq x z.
Proof.
  intros H. rewrite (strict_eq_sym x y), (strict_eq_sym x z).
  apply strict_eq_l, H.
Qed.

(** ** The trade list *)

Lemma update_absent (u : AnalyzedTrade) (l : list AnalyzedTrade) :
  (forall t, t ∈ l -> strict_eq (id (trade t)) (id (trade u)) = false) ->
  App.handleUpdateTrade u l = l.
Proof.
  unfold App.handleUpdateTrade. induction l as [|t l IH]; intros H; simpl.
  - reflexivity.
  - rewrite (H t (list_elem_of_here _ _)). f_equal.
    apply IH. intros t' Ht'. apply H. right. exact Ht'.
Qed.




Lemma update_insert (r t : AnalyzedTrade) (l : list AnalyzedTrade) (i : nat) :
  distinct_ids l -> l !! i = Some t ->
  strict_eq (id (trade t)) (id (trade r)) = true ->
  App.handleUpdateTrade r l = <[i := r]> l.
Proof.
  intros Hl. revert i. induction Hl as [|t0 l Hfresh Hl IH]; intros i Hi Heq.
  - discriminate Hi.
  - change (App.handleUpdateTrade r (t0 :: l))
      with ((if strict_eq (id (trade t0)) (id (trade r)) then r else t0)
            :: App.handleUpdateTrade r l).
    destruct i as [|i]; simpl in Hi.
    + injection Hi as ->. rewrite Heq. simpl. f_equal.
      apply update_absent. intros t' Ht'.
      rewrite (strict_eq_sym _ _), <- (strict_eq_l _ _ _ Heq).
      apply Hfresh, Ht'.
    + assert (Ht : t ∈ l) by (eapply list_elem_of_lookup_2, Hi).
      rewrite <- (strict_eq_r _ _ _ Heq), (Hfresh t Ht). simpl. f_equal.
      exact (IH i Hi Heq).
Qed.

Lemma eval_bind_ret {A B} (m : M A) (f : A -> B) (w : World) :
  eval (a ← m; mret (f a)) w
  = match eval m w with
    | Returns a => Returns (f a)
    | Throws e => Throws e
    | Unmodelled => Unmodelled
    end.
Proof.
  unfold eval, mbind, M_bind. destruct (m w) as [[a|e|] w']; reflexivity.
Qed.

(** ** The statistics *)


(** ** The form *)


Lemma truthy_string_spec (s : string) : truthy_string s = true <-> s <> "".
Proof.
  unfold truthy_string. destruct (String.eqb_spec s ""); simpl; split;
    congruence.
Qed.

(** * Part III: the claims *)

(** ** C1: the extremum scan *)

(** C1. On every window that is not empty and whose candles carry real
    prices, the summary's [minPrice] is the low of a candle of the window
    and no low of the window is smaller, [maxPrice] is the high of a candle
    and no high is larger, [minTimestamp] and [maxTimestamp] are the
    timestamps of these candles in milliseconds, and each of the two candles
    is the first of the window to reach its extremum: every earlier candle
    has a strictly larger low, respectively a strictly smaller high. *)
Theorem extremum_scan_correct (trade : TradeRecord) (window : list Candle) :
  window <> [] -> Forall real_prices window ->
  let a := summarize trade window in
  (exists i ci,
      window !! i = Some ci /\
      minPrice a = low ci /\
      minTimestamp a = Some (mul (at_ ci 0) (of_Z 1000)) /\
      (forall c, c ∈ window -> leb (low ci) (low c) = true) /\
      (forall k ck, (k < i)%nat -> window !! k = Some ck ->
                    ltb (low ci) (low ck) = true))
  /\
  (exists j cj,
      window !! j = Some cj /\
      maxPrice a = high cj /\
      maxTimestamp a = Some (mul (at_ cj 0) (of_Z 1000)) /\
      (forall c, c ∈ window -> geb (high cj) (high c) = true) /\
      (forall k ck, (k < j)%nat -> window !! k = Some ck ->
                    gtb (high cj) (high ck) = true)).
Proof.
  intros Hne Hwf a. split.
  - destruct (forEach_min window Hne Hwf) as (i & ci & H). exists i, ci. exact H.
  - destruct (forEach_max window Hne Hwf) as (j & cj & H). exists j, cj. exact H.
Qed.

Lemma extremum_scan_correct_witness :
  Sample.window <> [] /\ Forall real_prices Sample.window /\
  let a := summarize (Sample.trade None None open) Sample.window in
  (exists i ci,
      Sample.window !! i = Some ci /\
      minPrice a = low ci /\
      minTimestamp a = Some (mul (at_ ci 0) (of_Z 1000)) /\
      (forall c, c ∈ Sample.window -> leb (low ci) (low c) = true) /\
      (forall k ck, (k < i)%nat -> Sample.window !! k = Some ck ->
                    ltb (low ci) (low ck) = true))
  /\
  (exists j cj,
      Sample.window !! j = Some cj /\
      maxPrice a = high cj /\
      maxTimestamp a = Some (mul (at_ cj 0) (of_Z 1000)) /\
      (forall c, c ∈ Sample.window -> geb (high cj) (high c) = true) /\
      (forall k ck, (k < j)%nat -> Sample.window !! k = Some ck ->
                    gtb (high cj) (high ck) = true)).
Proof.
  assert (Hne : Sample.window <> []) by discriminate.
  assert (Hwf : Forall real_prices Sample.window).
  { repeat constructor. }
  split; [exact Hne|]. split; [exact Hwf|].
  exact (extremum_scan_correct (Sample.trade None None open) Sample.window Hne Hwf).
Defined.

(** The example of the specification: lows 5, 3, 8 and highs 6, 9, 10 at
    t1 < t2 < t3 give the minimum 3 at t2 and the maximum 10 at t3. *)
Example extremum_scan_example :
  let a := summarize (Sample.trade None None open) Sample.window in
  minPrice a = of_Z 3 /\ minTimestamp a = Some (of_Z 20000) /\
  maxPrice a = of_Z 10 /\ maxTimestamp a = Some (of_Z 30000).
Proof. vm_compute. repeat split. Qed.

(** ** C2: the empty window *)

(** C2. When the series handed to the analyzer is empty, or none of its
    candles has a timestamp within [buyTime, sellTime], the analyzer
    returns the trade with no analysis: it does not throw and builds no
    summary. *)
Theorem empty_window_null_analysis (trade : TradeRecord) (w : World)
    (ohlcvData : list Candle) :
  asSeries (client_value (network w (trade_url trade))) = Some ohlcvData ->
  (ohlcvData = [] \/
   forall candle, candle ∈ ohlcvData ->
     ~ (leb (buyTime w trade) (millis candle) = true /\
        leb (millis candle) (sellTime w trade) = true)) ->
  eval (analyzeTradePerformance trade) w
    = Returns {| trade := trade; analysis := None |}.
Proof.
  intros Hseries Hempty.
  rewrite (analyze_run trade w ohlcvData Hseries).
  assert (Hrel : relevantCandles (buyTime w trade) (sellTime w trade) ohlcvData = []).
  { destruct Hempty as [-> | Hout]; [reflexivity|].
    apply elem_of_nil_inv. intros c Hc.
    apply relevantCandles_spec in Hc as [Hin Hwin]. exact (Hout c Hin Hwin). }
  rewrite Hrel. reflexivity.
Qed.

(** A series whose only candle lies before the buy: nothing is in the
    window. *)
Lemma empty_window_null_analysis_witness :
  eval (analyzeTradePerformance (Sample.trade None None open))
       (Sample.world (Sample.ok [Sample.candle 5 1 1 1 1]))
    = Returns {| trade := Sample.trade None None open; analysis := None |}.
Proof.
  apply (empty_window_null_analysis _ _ [Sample.candle 5 1 1 1 1]);
    [vm_compute; reflexivity|].
  right. intros c Hc. apply list_elem_of_singleton in Hc as ->.
  vm_compute. intros [H _]. discriminate.
Defined.

(** A failed request: the client hands over an empty series, and the
    failure is written to the console. *)
Example failed_request_null_analysis :
  let m := analyzeTradePerformance (Sample.trade None None open) in
  eval m (Sample.world Rejected)
    = Returns {| trade := Sample.trade None None open; analysis := None |} /\
  console (exec m (Sample.world Rejected))
    = [("GeckoTerminal OHLCV error:", FetchFailed)].
Proof. vm_compute. split; reflexivity. Qed.

(** ** C3: gating of the realized and the captured percentage *)

(** C3, as stated, fails on a trade sold at the price 0: the sell price is
    recorded, yet [pnlPercent] is null. *)
Lemma percent_gating_counterexample :
  let trade := Sample.trade (Some (of_Z 0)) (Some "1970-01-01T00:00:30") closed in
  let w := Sample.world (Sample.ok Sample.window) in
  exists r a,
    eval (analyzeTradePerformance trade) w = Returns r /\
    analysis r = Some a /\
    ~ percent_gating_as_stated trade a.
Proof.
  eexists. eexists. split; [vm_compute; reflexivity|].
  split; [reflexivity|].
  intros [Hpnl _]. apply Hpnl; [discriminate|reflexivity].
Qed.

(** C3, amended. For every analyzed trade, [pnlPercent] is non-null exactly
    when the sell price is truthy, that is recorded and neither 0 nor NaN,
    and is then (sellPrice - buyPrice) / buyPrice * 100; [capturedPercent]
    is non-null exactly when [pnlPercent] is non-null and
    [maxGainPercent > 0], and is then pnlPercent / maxGainPercent * 100; in
    every other case [capturedPercent] is null. *)
Theorem percent_gating (trade : TradeRecord) (w : World) (r : AnalyzedTrade)
    (a : Analysis) :
  eval (analyzeTradePerformance trade) w = Returns r -> analysis r = Some a ->
  (forall p,
     pnlPercent a = Some p
     <-> exists sell,
           sellPrice trade = Some sell /\
           is_nan sell = false /\ strict_eq sell (of_Z 0) = false /\
           p = mul (div (sub sell (buyPrice trade)) (buyPrice trade)) (of_Z 100))
  /\
  (forall cp,
     capturedPercent a = Some cp
     <-> exists p,
           pnlPercent a = Some p /\ gtb (maxGainPercent a) (of_Z 0) = true /\
           cp = mul (div p (maxGainPercent a)) (of_Z 100))
  /\
  (capturedPercent a = None
   <-> pnlPercent a = None \/ gtb (maxGainPercent a) (of_Z 0) = false).
Proof.
  intros Hr Ha.
  destruct (analyze_Some trade w r a Hr Ha) as (ohlcvData & _ & _ & ->).
  set (window := relevantCandles _ _ _).
  pose proof (summarize_capturedPercent trade window) as Hcap. cbv zeta in Hcap.
  rewrite Hcap. clear Hcap.
  rewrite summarize_pnlPercent.
  set (gain := maxGainPercent (summarize trade window)).
  split; [|split].
  - intros p. destruct (sellPrice trade) as [sell|].
    + rewrite ToBoolean_spec.
      destruct (is_nan sell) eqn:Hn, (strict_eq sell (of_Z 0)) eqn:Hz;
        cbn [negb andb];
        (split; [try discriminate; intros [= <-]; eauto 6
                |intros (s & [= <-] & Hn' & Hz' & ->); congruence]).
    + split; [discriminate|intros (s & Hs & _); discriminate].
  - intros cp.
    destruct (match sellPrice trade with
              | Some sell => if Number.ToBoolean sell then _ else None
              | None => None end) as [p|].
    + destruct (gtb gain (of_Z 0)) eqn:Hg.
      * split; [intros [= <-]; eauto|intros (p' & [= <-] & _ & ->); reflexivity].
      * split; [discriminate|intros (p' & _ & Hg' & _); discriminate].
    + split; [discriminate|intros (p' & Hp & _); discriminate].
  - destruct (match sellPrice trade with
              | Some sell => if Number.ToBoolean sell then _ else None
              | None => None end) as [p|].
    + destruct (gtb gain (of_Z 0)) eqn:Hg.
      * split; [discriminate|intros [H|H]; discriminate].
      * split; auto.
    + split; auto.
Qed.

(** The trade of the specification's example: bought at 2 and sold at 3
    while the high reached 10. *)
Lemma percent_gating_witness :
  let trade := Sample.trade (Some (of_Z 3)) (Some "1970-01-01T00:00:30") closed in
  let w := Sample.world (Sample.ok Sample.window) in
  exists a,
    eval (analyzeTradePerformance trade) w
      = Returns {| trade := trade; analysis := Some a |} /\
    pnlPercent a = Some (of_Z 50) /\
    (capturedPercent a = None
     <-> pnlPercent a = None \/ gtb (maxGainPercent a) (of_Z 0) = false).
Proof.
  intros trade w.
  eexists. split; [vm_compute; reflexivity|].
  split; [vm_compute; reflexivity|].
  eapply (percent_gating trade w); [vm_compute; reflexivity|reflexivity].
Defined.

(** The examples of the specification: bought at 2, a high of 3 is a gain
    of 50 percent and a low of 1 a drawdown of -50 percent; sold at 2.5,
    the realized 25 percent are 50 percent of the gain. *)
Example percent_example :
  let half := div (of_Z 5) (of_Z 2) in
  let trade := Sample.trade (Some half) (Some "1970-01-01T00:00:30") closed in
  let a := summarize trade [Sample.candle 10 2 3 1 2] in
  maxGainPercent a = of_Z 50 /\ maxDrawdownPercent a = of_Z (-50) /\
  pnlPercent a = Some (of_Z 25) /\ capturedPercent a = Some (of_Z 50).
Proof. vm_compute. repeat split. Qed.

(** ** C4: the window filter *)




(** ** C5: the analyzer keeps no state *)

(** C5. Run in two worlds that give the same answer to the trade's request,
    show the same instant on the clock and parse dates alike, the analyzer
    yields identical results, whatever else differs between the worlds; a
    run changes nothing in the world but the console; hence a second run
    right after a first one yields the result of the first. *)
Theorem analyzer_idempotent (trade : TradeRecord) (w w' : World) :
  network w' (trade_url trade) = network w (trade_url trade) ->
  clock w' = clock w ->
  getTime w' = getTime w ->
  eval (analyzeTradePerformance trade) w' = eval (analyzeTradePerformance trade) w
  /\ same_host w (exec (analyzeTradePerformance trade) w)
  /\ eval (analyzeTradePerformance trade) (exec (analyzeTradePerformance trade) w)
     = eval (analyzeTradePerformance trade) w.
Proof.
  assert (Hsame : forall w1 w2,
             network w2 (trade_url trade) = network w1 (trade_url trade) ->
             clock w2 = clock w1 -> getTime w2 = getTime w1 ->
             eval (analyzeTradePerformance trade) w2
             = eval (analyzeTradePerformance trade) w1).
  { intros w1 w2 Hn Hc Hg.
    destruct (analyze_eval trade w1) as [_ ->].
    destruct (analyze_eval trade w2) as [_ ->].
    unfold buyTime, sellTime. rewrite Hn, Hc, Hg. reflexivity. }
  intros Hn Hc Hg.
  destruct (analyze_eval trade w) as [Hhost _].
  split; [exact (Hsame w w' Hn Hc Hg)|]. split; [exact Hhost|].
  destruct Hhost as (Hn' & Hc' & Hg' & _).
  apply Hsame; [rewrite Hn'; reflexivity|exact Hc'|exact Hg'].
Qed.

(** Two worlds that differ in their consoles only. *)
Lemma analyzer_idempotent_witness :
  let trade := Sample.trade (Some (of_Z 3)) (Some "1970-01-01T00:00:30") closed in
  let w := Sample.world (Sample.ok Sample.window) in
  let w' := exec (console_error "earlier failure" TypeError) w in
  console w' <> console w /\
  eval (analyzeTradePerformance trade) w' = eval (analyzeTradePerformance trade) w.
Proof.
  intros trade w w'. split; [discriminate|].
  apply (analyzer_idempotent trade w w'); reflexivity.
Defined.

(** ** C6: failures of the price series client *)

(** C6, as stated, fails on a response with status 500 whose body still
    carries a candle list: the client does not look at the status and
    returns the list. *)
Lemma client_degrades_counterexample :
  let answer := Resolved {| http_status := 500;
                            json_body := Some (Sample.payload Sample.window) |} in
  let w := Sample.world answer in
  failure_as_stated answer /\
  eval (GeckoTerminalAPI.getOHLCV "solana" "pool" "hour" 1 1000) w
    = Returns (VArr (map (fun c => VArr (map VNum c)) Sample.window)) /\
  ~ degrades_as_stated w "solana" "pool" "hour" 1 1000.
Proof.
  intros answer w.
  assert (Hfail : failure_as_stated answer) by (left; simpl; lia).
  split; [exact Hfail|]. split; [vm_compute; reflexivity|].
  intros H. specialize (H Hfail). vm_compute in H. discriminate.
Qed.

(** C6, amended. The client never throws: it always returns a value. It
    returns the empty series when the request fails, when the body is not
    valid JSON, and when the body has no truthy candle list at
    data.attributes.ohlcv_list. The status of the response is not looked at:
    two responses with the same body give the same result. *)
Theorem client_degrades_to_empty (network_ poolAddress timeframe : string)
    (aggregate limit : Z) (w : World) :
  let url := GeckoTerminalAPI.ohlcv_url network_ poolAddress timeframe aggregate limit in
  let m := GeckoTerminalAPI.getOHLCV network_ poolAddress timeframe aggregate limit in
  (exists v, eval m w = Returns v)
  /\ (network w url = Rejected -> eval m w = Returns (VArr []))
  /\ (forall r, network w url = Resolved r -> json_body r = None ->
        eval m w = Returns (VArr []))
  /\ (forall r data, network w url = Resolved r -> json_body r = Some data ->
        truthy (ohlcv_list_of data) = false ->
        eval m w = Returns (VArr []))
  /\ (forall r r' w', network w url = Resolved r ->
        network w' url = Resolved r' -> json_body r' = json_body r ->
        eval m w' = eval m w).
Proof.
  intros url m.
  assert (Hrun : forall w0, eval m w0 = Returns (client_value (network w0 url))).
  { intros w0. apply getOHLCV_run. }
  rewrite Hrun. repeat split.
  - eauto.
  - intros ->. reflexivity.
  - intros r -> Hbody. simpl. rewrite Hbody. reflexivity.
  - intros r data -> Hbody Hfalsy. simpl. rewrite Hbody.
    unfold or_else. rewrite Hfalsy. destruct data; reflexivity.
  - intros r r' w' Hr Hr' Hbody. rewrite Hrun, Hr, Hr'. simpl.
    rewrite Hbody. reflexivity.
Qed.

(** A body that is valid JSON but carries an error report instead of
    data. *)
Lemma client_degrades_to_empty_witness :
  let body := VObj {[ "errors" := VArr [VObj {[ "status" := VStr "404" ]}] ]} in
  let w := Sample.world (Resolved {| http_status := 404; json_body := Some body |}) in
  eval (GeckoTerminalAPI.getOHLCV "solana" "pool" "hour" 1 1000) w = Returns (VArr []).
Proof.
  intros body w.
  eapply (client_degrades_to_empty "solana" "pool" "hour" 1 1000 w);
    reflexivity.
Defined.

(** ** C7: the shape of the returned series *)

(** C7, as stated, fails on every successful fetch of a non-empty list: the
    client returns the provider's arrays, not objects with named fields. *)
Lemma client_normalizes_counterexample :
  let w := Sample.world (Sample.ok Sample.window) in
  eval (GeckoTerminalAPI.getOHLCV "solana" "pool" "hour" 1 1000) w
    = Returns (VArr (map (fun c => VArr (map VNum c)) Sample.window)) /\
  ~ normalizes_as_stated w "solana" "pool" "hour" 1 1000.
Proof.
  intros w. split; [vm_compute; reflexivity|].
  intros H.
  specialize (H (map (fun c => VArr (map VNum c)) Sample.window)).
  assert (Hall : Forall canonical_candle
                   (map (fun c => VArr (map VNum c)) Sample.window)).
  { apply H. vm_compute. reflexivity. }
  apply Forall_inv in Hall. destruct Hall as (o & Ho & _). discriminate Ho.
Qed.

(** C7, amended. For every fetch that succeeds with a truthy candle list,
    the client returns that list exactly as the provider sent it; the
    analyzer takes each candle to be the provider's array of numbers and
    reads it by position. *)
Theorem client_returns_raw_list (network_ poolAddress timeframe : string)
    (aggregate limit : Z) (w : World) (r : Response) (data : value) :
  network w (GeckoTerminalAPI.ohlcv_url network_ poolAddress timeframe aggregate limit)
    = Resolved r ->
  json_body r = Some data ->
  truthy (ohlcv_list_of data) = true ->
  eval (GeckoTerminalAPI.getOHLCV network_ poolAddress timeframe aggregate limit) w
    = Returns (ohlcv_list_of data)
  /\ (forall l candles,
        ohlcv_list_of data = VArr l -> asSeries (VArr l) = Some candles ->
        Forall2 raw_candle l candles).
Proof.
  intros Hr Hbody Htruthy. split.
  - destruct (getOHLCV_run network_ poolAddress timeframe aggregate limit w)
      as [_ ->].
    rewrite Hr. simpl. rewrite Hbody.
    unfold or_else. rewrite Htruthy.
    destruct data; try reflexivity; discriminate Htruthy.
  - intros l candles _ Hs. apply asSeries_raw, Hs.
Qed.

Lemma client_returns_raw_list_witness :
  let w := Sample.world (Sample.ok Sample.window) in
  eval (GeckoTerminalAPI.getOHLCV "solana" "pool" "hour" 1 1000) w
    = Returns (ohlcv_list_of (Sample.payload Sample.window)).
Proof.
  intros w.
  eapply (client_returns_raw_list "solana" "pool" "hour" 1 1000 w);
    [reflexivity|reflexivity|vm_compute; reflexivity].
Defined.

(** ** C8: the two ends of the window *)

(** C8, as stated, fails on a trade entered with a sell time but no sell
    price: the form marks it open, yet the window ends at the sell time and
    not at the current instant. *)
Lemma window_instants_counterexample :
  let w := Sample.world (Sample.ok Sample.window) in
  let form := SampleForm.form "" "1970-01-01T00:00:30" in
  exists trade,
    eval (handleSubmit (Some SampleForm.token) form) w = Returns (Some trade) /\
    status trade = open /\
    sellTime w trade = of_Z 30000 /\
    clock w = of_Z 40000 /\
    ~ window_as_stated w trade.
Proof.
  intros w form. eexists. split; [vm_compute; reflexivity|].
  split; [reflexivity|]. split; [reflexivity|]. split; [reflexivity|].
  intros [_ H]. vm_compute in H. discriminate H.
Qed.

(** The other way round: a sell price without a sell time gives a closed
    trade whose window ends at the current instant. *)
Example closed_without_sell_time :
  let w := Sample.world (Sample.ok Sample.window) in
  let form := SampleForm.form "3" "" in
  exists trade,
    eval (handleSubmit (Some SampleForm.token) form) w = Returns (Some trade) /\
    status trade = closed /\
    sellTimestamp trade = None /\
    sellTime w trade = clock w /\
    ~ window_as_stated w trade.
Proof.
  intros w form. eexists. split; [vm_compute; reflexivity|].
  split; [reflexivity|]. split; [reflexivity|]. split; [reflexivity|].
  intros [_ (s & Hs & _)]. discriminate Hs.
Qed.

(** C8, amended. The window starts at the buy timestamp in milliseconds.
    It ends at the sell timestamp in milliseconds when the trade records a
    sell timestamp that is not empty, and at the current instant otherwise,
    whatever the status and the sell price of the trade; the analyzer scans
    the candles between these two instants. *)
Theorem window_instants (w : World) (trade : TradeRecord) :
  buyTime w trade = getTime w (buyTimestamp trade)
  /\ (forall s, sellTimestamp trade = Some s -> s <> "" ->
        sellTime w trade = getTime w s)
  /\ (sellTimestamp trade = None \/ sellTimestamp trade = Some "" ->
        sellTime w trade = clock w)
  /\ (forall ohlcvData r,
        asSeries (client_value (network w (trade_url trade))) = Some ohlcvData ->
        eval (analyzeTradePerformance trade) w = Returns r ->
        forall a, analysis r = Some a ->
        a = summarize trade
              (relevantCandles (getTime w (buyTimestamp trade))
                 (sellTime w trade) ohlcvData)).
Proof.
  split; [reflexivity|]. split; [|split].
  - intros s Hs Hne. unfold sellTime. rewrite Hs.
    unfold truthy_string. destruct (String.eqb_spec s ""); [contradiction|].
    reflexivity.
  - intros [Hs|Hs]; unfold sellTime; rewrite Hs; reflexivity.
  - intros ohlcvData r Hseries Hr a Ha.
    destruct (analyze_Some trade w r a Hr Ha) as (data' & Hseries' & _ & ->).
    rewrite Hseries in Hseries'. injection Hseries' as <-. reflexivity.
Qed.

Lemma window_instants_witness :
  let w := Sample.world (Sample.ok Sample.window) in
  let trade := Sample.trade (Some (of_Z 3)) (Some "1970-01-01T00:00:30") closed in
  sellTime w trade = of_Z 30000 /\
  sellTime w (Sample.trade None None open) = of_Z 40000.
Proof.
  intros w trade. split.
  - destruct (window_instants w trade) as (_ & H & _).
    etransitivity; [apply (H "1970-01-01T00:00:30"); [reflexivity|discriminate]|].
    reflexivity.
  - destruct (window_instants w (Sample.trade None None open)) as (_ & _ & H & _).
    etransitivity; [apply H; left; reflexivity|]. reflexivity.
Defined.

(** ** C9: a sell price of zero *)

(** C9. For every trade whose sell price is 0 (or -0), an analysis that is
    produced has a null [pnlPercent] and a null [capturedPercent]: the sell
    price is tested for truthiness, and 0 is falsy. *)
Theorem zero_sell_price_is_no_sell (trade : TradeRecord) (w : World)
    (r : AnalyzedTrade) (a : Analysis) (sell : number) :
  eval (analyzeTradePerformance trade) w = Returns r -> analysis r = Some a ->
  sellPrice trade = Some sell -> strict_eq sell (of_Z 0) = true ->
  pnlPercent a = None /\ capturedPercent a = None.
Proof.
  intros Hr Ha Hsell Hzero.
  destruct (analyze_Some trade w r a Hr Ha) as (ohlcvData & _ & _ & ->).
  set (window := relevantCandles _ _ _).
  assert (Hpnl : pnlPercent (summarize trade window) = None).
  { rewrite summarize_pnlPercent, Hsell, ToBoolean_spec, Hzero.
    rewrite andb_false_r. reflexivity. }
  split; [exact Hpnl|].
  pose proof (summarize_capturedPercent trade window) as Hcap. cbv zeta in Hcap.
  rewrite Hcap, Hpnl. reflexivity.
Qed.

(** A trade the form records as closed, with the sell price text "0". *)
Lemma zero_sell_price_is_no_sell_witness :
  let w := Sample.world (Sample.ok Sample.window) in
  let trade := Sample.trade (Some (of_Z 0)) (Some "1970-01-01T00:00:30") closed in
  exists a,
    eval (analyzeTradePerformance trade) w
      = Returns {| trade := trade; analysis := Some a |} /\
    pnlPercent a = None /\ capturedPercent a = None.
Proof.
  intros w trade. eexists. split; [vm_compute; reflexivity|].
  eapply (zero_sell_price_is_no_sell trade w);
    [vm_compute; reflexivity|reflexivity|reflexivity|vm_compute; reflexivity].
Defined.

(** The form does record the text "0" as the sell price 0 of a closed
    trade. *)
Example form_records_zero_sell_price :
  let w := Sample.world (Sample.ok Sample.window) in
  exists trade,
    eval (handleSubmit (Some SampleForm.token)
            (SampleForm.form "0" "1970-01-01T00:00:30")) w
      = Returns (Some trade) /\
    sellPrice trade = Some (of_Z 0) /\ status trade = closed.
Proof. eexists. split; [vm_compute; reflexivity|]. split; reflexivity. Qed.

(** ** C10: well-formed summaries *)



(** * Part IV: further properties of the code *)

(** ** The analyzer *)

(** X1. On a window of candles with real prices, each with its low at most
    its high, the summary's [minPrice] is at most its [maxPrice]. *)
Theorem extrema_ordered (trade : TradeRecord) (window : list Candle) :
  window <> [] -> Forall real_prices window -> Forall low_le_high window ->
  leb (minPrice (summarize trade window)) (maxPrice (summarize trade window)) = true.
Proof.
  intros Hne Hwf Hlh.
  rewrite summarize_minPrice, summarize_maxPrice.
  destruct (forEach_min window Hne Hwf) as (i & ci & _ & -> & _ & Hmin & _).
  destruct (forEach_max window Hne Hwf) as (j & cj & Hj & -> & _).
  apply (leb_trans _ (low cj)).
  - apply Hmin. eapply list_elem_of_lookup_2, Hj.
  - exact (Forall_lookup_1 _ _ _ _ Hlh Hj).
Qed.

Lemma extrema_ordered_witness :
  leb (minPrice (summarize (Sample.trade None None open) Sample.window))
      (maxPrice (summarize (Sample.trade None None open) Sample.window)) = true.
Proof.
  apply (extrema_ordered (Sample.trade None None open) Sample.window);
    [discriminate | repeat constructor | repeat constructor].
Defined.

(** X2. Holding longer can only widen the range: when the window's end
    moves from [sellTime] to a later [sellTime'], over the same series of
    candles with real prices, the minimum does not rise, the maximum does
    not fall and the number of candles does not drop. *)
Theorem longer_window_wider_range (trade : TradeRecord)
    (buyTime sellTime sellTime' : number) (ohlcvData : list Candle) :
  leb sellTime sellTime' = true ->
  relevantCandles buyTime sellTime ohlcvData <> [] ->
  Forall real_prices ohlcvData ->
  let a := summarize trade (relevantCandles buyTime sellTime ohlcvData) in
  let a' := summarize trade (relevantCandles buyTime sellTime' ohlcvData) in
  leb (minPrice a') (minPrice a) = true /\
  leb (maxPrice a) (maxPrice a') = true /\
  (candleCount a <= candleCount a')%nat.
Proof.
  intros Hle Hne Hwf a a'. unfold a, a'.
  rewrite !summarize_minPrice, !summarize_maxPrice, !summarize_candleCount.
  assert (Hsub : forall c, c ∈ relevantCandles buyTime sellTime ohlcvData ->
                           c ∈ relevantCandles buyTime sellTime' ohlcvData).
  { intros c Hc. apply relevantCandles_spec in Hc as (Hin & Hb & He).
    apply relevantCandles_spec. repeat split; try assumption.
    exact (leb_trans _ _ _ He Hle). }
  destruct (forEach_subset _ _ Hsub Hne
              (relevantCandles_real_prices buyTime sellTime' ohlcvData Hwf))
    as [Hmin Hmax].
  split; [exact Hmin|]. split; [exact Hmax|].
  apply filter_length_mono. intros c Hc.
  apply in_window_spec in Hc as [Hb He]. apply in_window_spec.
  split; [exact Hb|exact (leb_trans _ _ _ He Hle)].
Qed.

Lemma longer_window_wider_range_witness :
  let a := summarize (Sample.trade None None open)
             (relevantCandles (of_Z 10000) (of_Z 20000) Sample.window) in
  let a' := summarize (Sample.trade None None open)
              (relevantCandles (of_Z 10000) (of_Z 30000) Sample.window) in
  leb (minPrice a') (minPrice a) = true /\
  leb (maxPrice a) (maxPrice a') = true /\
  (candleCount a <= candleCount a')%nat.
Proof.
  apply (longer_window_wider_range (Sample.trade None None open)
           (of_Z 10000) (of_Z 20000) (of_Z 30000) Sample.window);
    [vm_compute; reflexivity | vm_compute; discriminate | repeat constructor].
Defined.

(** X3. The extreme prices do not depend on the order in which the provider
    lists the candles: two windows with the same candles in any order give
    the same [minPrice], [maxPrice] (as compared by [===]) and
    [candleCount]. *)
Theorem extrema_order_independent (trade : TradeRecord)
    (window window' : list Candle) :
  Permutation window window' ->
  window <> [] -> Forall real_prices window ->
  let a := summarize trade window in
  let a' := summarize trade window' in
  strict_eq (minPrice a) (minPrice a') = true /\
  strict_eq (maxPrice a) (maxPrice a') = true /\
  candleCount a = candleCount a'.
Proof.
  intros Hperm Hne Hwf a a'. unfold a, a'.
  rewrite !summarize_minPrice, !summarize_maxPrice, !summarize_candleCount.
  assert (Hwf' : Forall real_prices window')
    by (rewrite <- Hperm; exact Hwf).
  assert (Hne' : window' <> []).
  { intros ->. apply Permutation_nil_r in Hperm. contradiction. }
  assert (Hsub : forall c, c ∈ window -> c ∈ window')
    by (intros c Hc; rewrite <- Hperm; exact Hc).
  assert (Hsub' : forall c, c ∈ window' -> c ∈ window)
    by (intros c Hc; rewrite Hperm; exact Hc).
  destruct (forEach_subset window window' Hsub Hne Hwf') as [Hmin Hmax].
  destruct (forEach_subset window' window Hsub' Hne' Hwf) as [Hmin' Hmax'].
  split; [apply leb_antisym; assumption|].
  split; [apply leb_antisym; assumption|].
  apply Permutation_length, Hperm.
Qed.

Lemma extrema_order_independent_witness :
  let a := summarize (Sample.trade None None open) Sample.window in
  let a' := summarize (Sample.trade None None open) (rev Sample.window) in
  strict_eq (minPrice a) (minPrice a') = true /\
  strict_eq (maxPrice a) (maxPrice a') = true /\
  candleCount a = candleCount a'.
Proof.
  apply (extrema_order_independent (Sample.trade None None open)
           Sample.window (rev Sample.window));
    [apply Permutation_rev | discriminate | repeat constructor].
Defined.

(** X4. The analysis reads only the timestamp, the high and the low of a
    candle: two series that agree on these three elements, candle by
    candle, give the same window size and the same summary, whatever their
    open, close and volume. *)
Theorem analysis_reads_ts_high_low_only (trade : TradeRecord)
    (buyTime sellTime : number) (ohlcvData ohlcvData' : list Candle) :
  Forall2 same_reading ohlcvData ohlcvData' ->
  summarize trade (relevantCandles buyTime sellTime ohlcvData)
  = summarize trade (relevantCandles buyTime sellTime ohlcvData').
Proof.
  intros H.
  pose proof (relevantCandles_same_reading buyTime sellTime _ _ H) as Hrel.
  unfold summarize, Loop.forEach.
  rewrite (fold_body_same_reading _ _ Loop.init Hrel).
  rewrite (Forall2_length _ _ _ Hrel). reflexivity.
Qed.

Lemma analysis_reads_ts_high_low_only_witness :
  summarize (Sample.trade None None open)
    (relevantCandles (of_Z 10000) (of_Z 30000) Sample.window)
  = summarize (Sample.trade None None open)
      (relevantCandles (of_Z 10000) (of_Z 30000)
         [Sample.candle 10 0 6 5 0; Sample.candle 20 1 9 3 1;
          Sample.candle 30 2 10 8 2]).
Proof.
  apply (analysis_reads_ts_high_low_only (Sample.trade None None open)).
  repeat constructor.
Defined.

(** X5. In every summary the analyzer returns over candles with real
    prices, the instants of the two extrema lie inside the holding window:
    buyTime <= minTimestamp <= sellTime, and the same for maxTimestamp. *)
Theorem extremum_instants_in_window (trade : TradeRecord) (w : World)
    (r : AnalyzedTrade) (a : Analysis) (ohlcvData : list Candle) :
  eval (analyzeTradePerformance trade) w = Returns r -> analysis r = Some a ->
  asSeries (client_value (network w (trade_url trade))) = Some ohlcvData ->
  Forall real_prices ohlcvData ->
  exists tmin tmax,
    minTimestamp a = Some tmin /\ maxTimestamp a = Some tmax /\
    leb (buyTime w trade) tmin = true /\ leb tmin (sellTime w trade) = true /\
    leb (buyTime w trade) tmax = true /\ leb tmax (sellTime w trade) = true.
Proof.
  intros Hr Ha Hseries Hwf.
  destruct (analyze_Some trade w r a Hr Ha) as (data' & Hseries' & Hne & ->).
  rewrite Hseries in Hseries'. injection Hseries' as <-.
  set (relevant := relevantCandles (buyTime w trade) (sellTime w trade) ohlcvData) in *.
  assert (Hwf' : Forall real_prices relevant)
    by (apply relevantCandles_real_prices, Hwf).
  destruct (forEach_min relevant Hne Hwf') as (i & ci & Hi & _ & Hmint & _).
  destruct (forEach_max relevant Hne Hwf') as (j & cj & Hj & _ & Hmaxt & _).
  apply list_elem_of_lookup_2, relevantCandles_spec in Hi as (_ & Hib & Hie).
  apply list_elem_of_lookup_2, relevantCandles_spec in Hj as (_ & Hjb & Hje).
  exists (millis ci), (millis cj).
  rewrite summarize_minTimestamp, summarize_maxTimestamp. auto 10.
Qed.

Lemma extremum_instants_in_window_witness :
  let w := Sample.world (Sample.ok Sample.window) in
  let trade := Sample.trade (Some (of_Z 3)) (Some "1970-01-01T00:00:30") closed in
  exists a tmin tmax,
    eval (analyzeTradePerformance trade) w
      = Returns {| trade := trade; analysis := Some a |} /\
    minTimestamp a = Some tmin /\ maxTimestamp a = Some tmax /\
    leb (buyTime w trade) tmin = true /\ leb tmin (sellTime w trade) = true /\
    leb (buyTime w trade) tmax = true /\ leb tmax (sellTime w trade) = true.
Proof.
  intros w trade. eexists.
  eassert (H : _);
    [eapply (extremum_instants_in_window trade w _ _ Sample.window);
       [vm_compute; reflexivity | reflexivity | vm_compute; reflexivity
       | repeat constructor]|].
  destruct H as (tmin & tmax & H). exists tmin, tmax.
  split; [vm_compute; reflexivity|exact H].
Defined.

(** X6. The analyzer writes to the console exactly when its client caught
    an error (the request failed, the body is not JSON, or the body is
    [null]), and then one line; a body without a candle list, an empty
    series and an empty window are all silent. Nothing else in the world
    changes. *)
Theorem analyzer_console (trade : TradeRecord) (w : World) :
  let w' := exec (analyzeTradePerformance trade) w in
  same_host w w' /\
  console w'
  = console w ++
    match caught_error (network w (trade_url trade)) with
    | Some e => [("GeckoTerminal OHLCV error:", e)]
    | None => []
    end.
Proof.
  intros w'. unfold w'. split.
  - apply analyze_eval.
  - rewrite analyze_exec. apply getOHLCV_console.
Qed.

(** X7. On a series of numeric candle arrays the analyzer always returns
    the trade it was given, and it leaves the analysis out exactly when no
    candle of the series has its timestamp within the window: as soon as
    one candle is inside, a summary is produced, and its [candleCount] is
    the number of candles inside. *)
Theorem analysis_exists_iff (t : TradeRecord) (w : World)
    (ohlcvData : list Candle) :
  asSeries (client_value (network w (trade_url t))) = Some ohlcvData ->
  exists r,
    eval (analyzeTradePerformance t) w = Returns r /\
    trade r = t /\
    (analysis r = None
     <-> forall candle, candle ∈ ohlcvData ->
           ~ (leb (buyTime w t) (millis candle) = true /\
              leb (millis candle) (sellTime w t) = true)) /\
    (forall a, analysis r = Some a ->
       candleCount a
       = length (relevantCandles (buyTime w t) (sellTime w t) ohlcvData)
       /\ (1 <= candleCount a)%nat).
Proof.
  intros Hseries.
  pose proof (analyze_run t w ohlcvData Hseries) as Hrun. cbv zeta in Hrun.
  eexists. split; [exact Hrun|]. split; [reflexivity|].
  cbn [analysis].
  set (relevant := relevantCandles (buyTime w t) (sellTime w t) ohlcvData).
  destruct relevant as [|c rest] eqn:Hrel; cbn [length Nat.eqb].
  - split.
    + split; [|reflexivity]. intros _ candle Hin Hwin.
      assert (H : candle ∈ relevant)
        by (apply relevantCandles_spec; split; assumption).
      rewrite Hrel in H. apply elem_of_nil in H. exact H.
    + intros a Ha. discriminate Ha.
  - split.
    + split; [discriminate|]. intros Hnone. exfalso.
      assert (H : c ∈ relevant) by (rewrite Hrel; left).
      apply relevantCandles_spec in H as (Hin & Hwin).
      exact (Hnone c Hin Hwin).
    + intros a [= <-]. rewrite summarize_candleCount. simpl. split; [reflexivity|lia].
Qed.

Lemma analysis_exists_iff_witness :
  let w := Sample.world (Sample.ok Sample.window) in
  let trade := Sample.trade None None open in
  exists r a,
    eval (analyzeTradePerformance trade) w = Returns r /\
    analysis r = Some a /\ candleCount a = 3%nat.
Proof.
  intros w trade.
  destruct (analysis_exists_iff trade w Sample.window) as (r & Hr & _ & _ & Hcount);
    [vm_compute; reflexivity|].
  assert (Hr' : eval (analyzeTradePerformance trade) w
                = Returns {| trade := trade;
                             analysis := Some (summarize trade Sample.window) |})
    by (vm_compute; reflexivity).
  rewrite Hr in Hr'. injection Hr' as ->.
  eexists. eexists. split; [exact Hr|]. split; [reflexivity|].
  destruct (Hcount _ eq_refl) as [-> _]. vm_compute. reflexivity.
Defined.

(** ** The DexScreener client *)

(** X8. [searchToken] never throws. When the request fails, the body is
    not JSON or the body is [null], it returns the empty list and writes
    one line to the console; otherwise it returns the body's [pairs]
    unchanged when that is truthy, whatever its shape, and the empty list
    when it is missing or falsy, without writing anything. *)
Theorem searchToken_behaviour (encodeURIComponent : string -> string)
    (query : string) (w : World) :
  let m := DexScreenerAPI.searchToken encodeURIComponent query in
  let answer := network w (DexScreenerAPI.search_url encodeURIComponent query) in
  (exists v, eval m w = Returns v)
  /\ (forall e, caught_error answer = Some e ->
        eval m w = Returns (VArr []) /\
        console (exec m w) = console w ++ [("DexScreener search error:", e)])
  /\ (forall r data, answer = Resolved r -> json_body r = Some data ->
        nullish data = false ->
        eval m w = Returns (if truthy (opt_member data "pairs")
                            then opt_member data "pairs" else VArr []) /\
        console (exec m w) = console w).
Proof.
  intros m answer.
  destruct (searchToken_run encodeURIComponent query w) as (_ & Hval & Hcon).
  fold m answer in Hval, Hcon. rewrite Hval, Hcon.
  split; [eauto|]. split.
  - intros e He. rewrite He. split; reflexivity.
  - intros r data Hr Hbody Hnn. rewrite Hr. unfold caught_error.
    destruct r as [st body]. simpl in Hbody. subst body.
    destruct data; try discriminate Hnn; rewrite app_nil_r; split; reflexivity.
Qed.

(** X9. [getTokenPairs] never throws and returns the parsed body itself
    when it is truthy, whatever its shape, so an error report sent as a
    JSON object reaches the caller in place of a list of pairs; a falsy
    body, [null] included, gives the empty list without a line on the
    console, and only a failed request or a body that is not JSON is
    logged, with one line. *)
Theorem getTokenPairs_behaviour (chainId tokenAddress : string) (w : World) :
  let m := DexScreenerAPI.getTokenPairs chainId tokenAddress in
  let answer := network w (DexScreenerAPI.token_pairs_url chainId tokenAddress) in
  (exists v, eval m w = Returns v)
  /\ (forall r data, answer = Resolved r -> json_body r = Some data ->
        eval m w = Returns (if truthy data then data else VArr []) /\
        console (exec m w) = console w)
  /\ (answer = Rejected ->
        eval m w = Returns (VArr []) /\
        console (exec m w)
        = console w ++ [("DexScreener token pairs error:", FetchFailed)])
  /\ (forall r, answer = Resolved r -> json_body r = None ->
        eval m w = Returns (VArr []) /\
        console (exec m w)
        = console w ++ [("DexScreener token pairs error:", SyntaxError)]).
Proof.
  intros m answer.
  destruct (getTokenPairs_run chainId tokenAddress w) as (_ & Hval & Hcon).
  fold m answer in Hval, Hcon. rewrite Hval, Hcon.
  split; [eauto|]. split; [|split].
  - intros [st body] data -> Hbody. simpl in Hbody. subst body.
    rewrite app_nil_r. split; reflexivity.
  - intros ->. split; reflexivity.
  - intros [st body] -> Hbody. simpl in Hbody. subst body. split; reflexivity.
Qed.

(** ** The token search box *)

(** X10. When a search with a query that is not blank returns, the box is
    no longer loading, the query is kept, and the results are the first
    ten, in the provider's order, of the pairs whose [chainId] is
    "solana": at most ten, each on Solana. *)
Theorem handleSearch_results (encodeURIComponent trim : string -> string)
    (st st' : TokenSearch.state) (w w' : World) :
  trim (TokenSearch.query st) <> "" ->
  TokenSearch.handleSearch encodeURIComponent trim st w = (Returns tt, st', w') ->
  TokenSearch.loading st' = false /\
  TokenSearch.query st' = TokenSearch.query st /\
  (length (TokenSearch.results st') <= 10)%nat /\
  (forall p, p ∈ TokenSearch.results st' -> opt_member p "chainId" = VStr "solana") /\
  exists l,
    eval (DexScreenerAPI.searchToken encodeURIComponent (TokenSearch.query st)) w
      = Returns (VArr l) /\
    TokenSearch.results st' = firstn 10 (List.filter chain_is_solana l).
Proof.
  intros Hq Hrun.
  rewrite (handleSearch_searching encodeURIComponent trim st w Hq) in Hrun.
  destruct (searchToken_run encodeURIComponent (TokenSearch.query st) w)
    as (_ & Hval & _).
  fold (pairs_value (network w (DexScreenerAPI.search_url encodeURIComponent
                                  (TokenSearch.query st)))) in Hval.
  destruct (pairs_value _) as [| | | | |l|] eqn:Hpairs; try discriminate Hrun.
  simpl in Hrun.
  destruct (TokenSearch.filter_solana l) as [e|solana] eqn:Hf; [discriminate|].
  apply filter_solana_inr in Hf as [_ ->].
  injection Hrun as <- <-. simpl.
  split; [reflexivity|]. split; [reflexivity|].
  split; [rewrite length_take; lia|].
  split.
  - intros p Hp. apply elem_of_take in Hp as (i & Hi & _).
    apply list_elem_of_lookup_2, list_elem_of_In, filter_In in Hi as [_ Hp].
    apply chain_is_solana_true, Hp.
  - exists l. split; [exact Hval|reflexivity].
Qed.

Lemma handleSearch_results_witness :
  let st := SampleSearch.state "bonk" in
  let w := Sample.world SampleSearch.found in
  exists st' w',
    TokenSearch.handleSearch SampleSearch.encodeURIComponent SampleSearch.trim st w
      = (Returns tt, st', w') /\
    TokenSearch.results st' = [SampleSearch.pair "solana" "BONK"] /\
    TokenSearch.loading st' = false /\
    (length (TokenSearch.results st') <= 10)%nat.
Proof.
  intros st w. eexists. eexists.
  split; [vm_compute; reflexivity|].
  split; [reflexivity|].
  eassert (H : _);
    [eapply (handleSearch_results SampleSearch.encodeURIComponent
               SampleSearch.trim st _ w _);
       [vm_compute; discriminate | vm_compute; reflexivity]|].
  destruct H as (H1 & _ & H2 & _). split; [exact H1|exact H2].
Defined.

(** X11. A search throws exactly when the client hands over something that
    is not an array, or an array holding a [null]; the error is a
    TypeError, raised after the box was set to loading and before it is
    reset: the box stays in the loading state and keeps its old results. *)
Theorem handleSearch_throws (encodeURIComponent trim : string -> string)
    (st : TokenSearch.state) (w : World) (pairs : value) :
  trim (TokenSearch.query st) <> "" ->
  eval (DexScreenerAPI.searchToken encodeURIComponent (TokenSearch.query st)) w
    = Returns pairs ->
  let run := TokenSearch.handleSearch encodeURIComponent trim st w in
  let outcome := fst (fst run) in
  let st' := snd (fst run) in
  ((exists e, outcome = Throws e)
   <-> is_array pairs = false \/
       exists l, pairs = VArr l /\ Exists (fun p => nullish p = true) l)
  /\ (forall e, outcome = Throws e ->
        e = TypeError /\ TokenSearch.loading st' = true /\
        TokenSearch.results st' = TokenSearch.results st /\
        TokenSearch.query st' = TokenSearch.query st).
Proof.
  intros Hq Hpairs run outcome st'. subst outcome st' run.
  rewrite (handleSearch_searching encodeURIComponent trim st w Hq).
  destruct (searchToken_run encodeURIComponent (TokenSearch.query st) w)
    as (_ & Hval & _).
  fold (pairs_value (network w (DexScreenerAPI.search_url encodeURIComponent
                                  (TokenSearch.query st)))) in Hval.
  rewrite Hval in Hpairs. injection Hpairs as ->.
  destruct (TokenSearch.solanaPairs pairs) as [e|solana] eqn:Hs; simpl.
  - assert (He : e = TypeError).
    { destruct pairs; simpl in Hs; try (injection Hs as <-; reflexivity).
      apply filter_solana_inl in Hs as [_ ->]. reflexivity. }
    subst e. split.
    + split; [intros _|eauto].
      destruct pairs; simpl; auto.
      right. eexists. split; [reflexivity|].
      simpl in Hs. apply filter_solana_inl in Hs as [Hex _]. exact Hex.
    + intros e [= <-]. auto.
  - split; [|intros e He; discriminate He].
    split; [intros [e He]; discriminate He|].
    intros [Hna | (l & -> & Hex)].
    + destruct pairs; simpl in Hs, Hna; discriminate.
    + simpl in Hs.
      discriminate (eq_trans (eq_sym Hs) (proj2 (filter_solana_inl l TypeError)
                                            (conj Hex eq_refl))).
Qed.

Lemma handleSearch_throws_witness :
  let st := SampleSearch.state "bonk" in
  let w := Sample.world SampleSearch.holed in
  let run := TokenSearch.handleSearch SampleSearch.encodeURIComponent
               SampleSearch.trim st w in
  fst (fst run) = Throws TypeError /\
  TokenSearch.loading (snd (fst run)) = true.
Proof.
  intros st w run.
  assert (H : fst (fst run) = Throws TypeError) by (vm_compute; reflexivity).
  split; [exact H|].
  eapply (handleSearch_throws SampleSearch.encodeURIComponent SampleSearch.trim
            st w _);
    [vm_compute; discriminate | vm_compute; reflexivity | exact H].
Defined.

(** ** The trade list *)





(** X14. Analyzing the trade of a card updates the list in place: when
    the ids of the list are pairwise different and the trade, with an id
    other than NaN, sits at position [i], the list after the analysis is
    the list before with position [i] replaced by the analyzed trade, whose
    trade fields are those of the trade analyzed. *)
Theorem handleAnalyze_in_place (t : AnalyzedTrade) (prev : list AnalyzedTrade)
    (i : nat) (w : World) (ohlcvData : list Candle) :
  distinct_ids prev -> prev !! i = Some t ->
  is_nan (id (trade t)) = false ->
  asSeries (client_value (network w (trade_url (trade t)))) = Some ohlcvData ->
  exists r,
    eval (analyzeTradePerformance (trade t)) w = Returns r /\
    trade r = trade t /\
    eval (App.handleAnalyze t prev) w = Returns (<[i := r]> prev).
Proof.
  intros Hprev Hi Hid Hseries.
  pose proof (analyze_run (trade t) w ohlcvData Hseries) as Hrun.
  cbv zeta in Hrun.
  eexists. split; [exact Hrun|]. split; [reflexivity|].
  unfold App.handleAnalyze. rewrite eval_bind_ret, Hrun. f_equal.
  apply (update_insert _ t); [exact Hprev|exact Hi|].
  simpl. apply strict_eq_refl, Hid.
Qed.

Lemma handleAnalyze_in_place_witness :
  let t := {| trade := Sample.trade (Some (of_Z 3)) (Some "1970-01-01T00:00:30") closed;
              analysis := None |} in
  let w := Sample.world (Sample.ok Sample.window) in
  exists r,
    trade r = trade t /\
    eval (App.handleAnalyze t [t]) w = Returns [r].
Proof.
  intros t w.
  destruct (handleAnalyze_in_place t [t] 0 w Sample.window) as (r & _ & Hr & Hl).
  - constructor; [|constructor].
    intros t' Ht'. apply elem_of_nil in Ht'. contradiction.
  - reflexivity.
  - reflexivity.
  - vm_compute. reflexivity.
  - exists r. split; [exact Hr|exact Hl].
Defined.

(** ** The statistics and the card *)


(** X16. Whenever the analysis of a trade carries a realized P&L, the
    header of the trade's card shows the same number, whatever the current
    price is. *)
Theorem card_pnl_agrees (t : TradeRecord) (w : World) (r : AnalyzedTrade)
    (a : Analysis) (p : number) (currentPrice : option number) :
  eval (analyzeTradePerformance t) w = Returns r -> analysis r = Some a ->
  pnlPercent a = Some p ->
  TradeCard.pnl t currentPrice = Some p.
Proof.
  intros Hr Ha Hp.
  destruct (analyze_Some t w r a Hr Ha) as (ohlcvData & _ & _ & ->).
  rewrite summarize_pnlPercent in Hp. unfold TradeCard.pnl.
  destruct (sellPrice t) as [sell|]; [|discriminate].
  destruct (Number.ToBoolean sell); [exact Hp|discriminate].
Qed.

Lemma card_pnl_agrees_witness :
  let t := Sample.trade (Some (of_Z 3)) (Some "1970-01-01T00:00:30") closed in
  TradeCard.pnl t (Some (of_Z 10)) = Some (of_Z 50).
Proof.
  intros t.
  eapply (card_pnl_agrees t (Sample.world (Sample.ok Sample.window)));
    [vm_compute; reflexivity | reflexivity | vm_compute; reflexivity].
Defined.

(** ** The form *)

